(** * redditFetcher: a shallow embedding of [main.go]

    The program polls one subreddit, keeps per-author post counters and the
    most upvoted post seen so far in a [StatsManager] guarded by one mutex,
    and paces its requests with the rate-limit state the server reports.

    Go values are modelled as follows:
    - [int] is a 64-bit two's complement integer, a [Z] with the wrap-around
      of [++] written out ([wrap_int]);
    - [map[string]int] is a [gmap string Z]; reading a missing key yields 0;
    - [time.Time] is the number of nanoseconds since the zero [Time];
    - [sync.Mutex] is a boolean, [true] when held;
    - a decoded JSON document is a [JValue], the [interface{}] tree that
      [encoding/json] builds;
    - a function that touches the [StatsManager] is a computation in the
      monad [M], whose results tell a normal return from a run-time panic
      and from a goroutine parked for ever on the mutex.
    Console and log output is not part of the model. *)

From Stdlib Require Import ZArith List Lia Bool.
From Stdlib Require SpecFloat.
From stdpp Require Import gmap strings list fin_maps.

Local Open Scope string_scope.
Local Open Scope Z_scope.

(** ** Machine integers *)

Definition int_min : Z := - 2 ^ 63.
Definition int_max : Z := 2 ^ 63 - 1.

(** Two's complement wrap-around of a 64-bit [int]. *)
Definition wrap_int (z : Z) : Z := (z + 2 ^ 63) mod 2 ^ 64 - 2 ^ 63.

(** ** Data model *)

(** [type RedditPost struct] *)
Record RedditPost : Type := mkPost {
  Title : string;
  Author : string;
  Upvotes : Z
}.

(** [type Stats struct] *)
Record Stats : Type := mkStats {
  TopUsers : gmap string Z;
  MostUpvotedPost : RedditPost
}.

(** [time.Time]: nanoseconds since January 1, year 1 UTC, the zero [Time]. *)
Definition Time : Type := Z.

(** [type StatsManager struct] *)
Record StatsManager : Type := mkSM {
  mu : bool;
  stats : Stats;
  remainingRequests : Z;
  resetTime : Time
}.

(** The zero value of [RedditPost]. *)
Definition zeroPost : RedditPost := mkPost "" "" 0.

(** [func NewStatsManager() *StatsManager]: every field but the map keeps
    its zero value. *)
Definition NewStatsManager : StatsManager :=
  mkSM false (mkStats ∅ zeroPost) 0 0.

Definition set_mu (b : bool) (sm : StatsManager) : StatsManager :=
  mkSM b (stats sm) (remainingRequests sm) (resetTime sm).
Definition set_stats (st : Stats) (sm : StatsManager) : StatsManager :=
  mkSM (mu sm) st (remainingRequests sm) (resetTime sm).
Definition set_remainingRequests (n : Z) (sm : StatsManager) : StatsManager :=
  mkSM (mu sm) (stats sm) n (resetTime sm).
Definition set_resetTime (t : Time) (sm : StatsManager) : StatsManager :=
  mkSM (mu sm) (stats sm) (remainingRequests sm) t.

(** ** Computations over the shared [StatsManager] *)

(** How a call ends: it returns, it panics (nothing in the program recovers,
    so the process dies), or its goroutine waits for [sm.mu] with nobody
    left to release it; [Deadlock] keeps the state at that point. *)
Inductive result (A : Type) : Type :=
| Ok (a : A) (sm : StatsManager)
| Panic (msg : string)
| Deadlock (sm : StatsManager).
Arguments Ok {A} a sm.
Arguments Panic {A} msg.
Arguments Deadlock {A} sm.

Definition M (A : Type) : Type := StatsManager -> result A.

Definition ret {A} (a : A) : M A := fun sm => Ok a sm.

Definition bind {A B} (c : M A) (k : A -> M B) : M B :=
  fun sm =>
    match c sm with
    | Ok a sm' => k a sm'
    | Panic msg => Panic msg
    | Deadlock sm' => Deadlock sm'
    end.

Notation "x <- c ;; k" := (bind c (fun x => k))
  (at level 100, c at next level, right associativity).
Notation "c ;; k" := (bind c (fun _ => k))
  (at level 100, right associativity).

Definition get : M StatsManager := fun sm => Ok sm sm.
Definition modify (f : StatsManager -> StatsManager) : M unit :=
  fun sm => Ok tt (f sm).
Definition panic {A} (msg : string) : M A := fun _ => Panic msg.

(** [sm.mu.Lock()]. The mutex is not reentrant: locking it while it is held
    parks the caller. In the run of one goroutine nobody else can release
    it, so the call never comes back. *)
Definition Lock : M unit :=
  fun sm => if mu sm then Deadlock sm else Ok tt (set_mu true sm).

(** [sm.mu.Unlock()]; unlocking a free mutex is a fatal run-time error. *)
Definition Unlock : M unit :=
  fun sm => if mu sm then Ok tt (set_mu false sm)
            else Panic "sync: unlock of unlocked mutex".

(** ** The aggregator *)

(** One turn of the loop of [UpdateStats]:
    [sm.stats.TopUsers[post.Author]++] and then the comparison with the
    stored post. *)
Definition update_post (st : Stats) (post : RedditPost) : Stats :=
  let users :=
    <[Author post := wrap_int (default 0 (TopUsers st !! Author post) + 1)]>
      (TopUsers st) in
  if Upvotes post >? Upvotes (MostUpvotedPost st)
  then mkStats users post
  else mkStats users (MostUpvotedPost st).

(** [func (sm *StatsManager) UpdateStats(posts []RedditPost)]: the deferred
    [Unlock] runs when the loop is over. *)
Definition UpdateStats (posts : list RedditPost) : M unit :=
  Lock ;;
  modify (fun sm => set_stats (fold_left update_post posts (stats sm)) sm) ;;
  Unlock.

(** A sequence of [UpdateStats] calls, one per element of [calls]. *)
Fixpoint run_updates (calls : list (list RedditPost)) : M unit :=
  match calls with
  | [] => ret tt
  | posts :: rest => UpdateStats posts ;; run_updates rest
  end.

(** What [PrintStats] reads under the lock: the stored post when its title
    is not empty, the counters, and the rate-limit fields. *)
Record Snapshot : Type := mkSnapshot {
  snap_top : option RedditPost;
  snap_users : gmap string Z;
  snap_remaining : Z;
  snap_reset : option Time
}.

(** [func (sm *StatsManager) PrintStats()]: the whole read happens between
    [Lock] and the deferred [Unlock]. *)
Definition PrintStats : M Snapshot :=
  Lock ;;
  sm <- get ;;
  let top := MostUpvotedPost (stats sm) in
  let snap :=
    mkSnapshot (if String.eqb (Title top) "" then None else Some top)
               (TopUsers (stats sm))
               (remainingRequests sm)
               (if Z.eqb (resetTime sm) 0 then None else Some (resetTime sm)) in
  Unlock ;;
  ret snap.

(** ** Time *)

Definition Second : Z := 1000000000.
Definition minDuration : Z := int_min.
Definition maxDuration : Z := int_max.

(** Seconds from the zero [Time] to the Unix epoch. *)
Definition unixToInternal : Z := 62135596800.

(** [time.Unix(sec, 0)]: the seconds are kept in an [int64] counted from
    the zero [Time]. *)
Definition Unix (sec : Z) : Time := wrap_int (sec + unixToInternal) * Second.

(** [t.IsZero()] *)
Definition IsZero (t : Time) : bool := Z.eqb t 0.

(** [t.Sub(u)]: a [Duration] in nanoseconds, saturated at the ends of
    [int64]. *)
Definition Sub (t u : Time) : Z := Z.max minDuration (Z.min maxDuration (t - u)).

(** [time.Until(t)] when the clock reads [now]. *)
Definition Until (t now : Time) : Z := Sub t now.

(** ** Decoded JSON *)

(** The value [encoding/json] stores in an [interface{}]: [nil], [bool],
    [float64], [string], [[]interface{}] or [map[string]interface{}]. A
    [float64] is a [spec_float] of binary64 (precision 53, [emax] 1024). *)
#[local] Set Warnings "-register-all".
Inductive JValue : Type :=
| JNull
| JBool (b : bool)
| JNumber (f : SpecFloat.spec_float)
| JString (s : string)
| JArray (xs : list JValue)
| JObject (kvs : list (string * JValue)).

(** [m[key]] on a [map[string]interface{}] given by its members in the
    order of the document: the decoder stores them one after the other, so
    the last member of a name wins, and a missing name reads [nil]. *)
Definition jlookup (key : string) (kvs : list (string * JValue)) : JValue :=
  fold_left (fun acc kv => if String.eqb (fst kv) key then snd kv else acc)
            kvs JNull.

(** What [json.NewDecoder(body).Decode] finds in a response body: no JSON
    value (a syntax error, an empty or unreadable body) or the first
    value. *)
Inductive Decoded : Type :=
| DecodeError (err : string)
| DecodeValue (v : JValue).

(** [Decode(&m)] for [var m map[string]interface{}]: an object fills the
    map, [null] leaves it [nil] without an error, any other value is an
    [UnmarshalTypeError]. A [nil] map reads like an empty one. *)
Definition Decode_map (body : Decoded) : string + list (string * JValue) :=
  match body with
  | DecodeError err => inl err
  | DecodeValue (JObject kvs) => inr kvs
  | DecodeValue JNull => inr []
  | DecodeValue _ =>
      inl "json: cannot unmarshal into Go value of type map[string]interface {}"
  end.

(** A value, or the message of a run-time panic. *)
Definition Checked (A : Type) : Type := string + A.

Notation "x <~ c ;; k" :=
  (match c with inl msg => inl msg | inr x => k end)
  (at level 100, c at next level, right associativity).

(** A panic inside a computation over the [StatsManager]. *)
Definition lift {A} (c : Checked A) : M A :=
  fun sm => match c with inl msg => Panic msg | inr a => Ok a sm end.

(** The type assertions [v.(T)]; a failed one panics. *)
Definition as_map (v : JValue) : Checked (list (string * JValue)) :=
  match v with
  | JObject kvs => inr kvs
  | _ => inl "interface conversion: interface {} is not map[string]interface {}"
  end.

Definition as_slice (v : JValue) : Checked (list JValue) :=
  match v with
  | JArray xs => inr xs
  | _ => inl "interface conversion: interface {} is not []interface {}"
  end.

Definition as_string (v : JValue) : Checked string :=
  match v with
  | JString s => inr s
  | _ => inl "interface conversion: interface {} is not string"
  end.

Definition as_float64 (v : JValue) : Checked SpecFloat.spec_float :=
  match v with
  | JNumber f => inr f
  | _ => inl "interface conversion: interface {} is not float64"
  end.

(** ** Conversion of a [float64] to [int] *)

(** [int(f)]: the fraction is discarded. The magnitude [m * 2^e] is shifted
    ([Z.shiftl] by a negative amount shifts right) and the sign put back.
    For NaN, the infinities and values outside [int64] the language leaves
    the result to the implementation; the value here is the one of amd64. *)
Definition float64_to_int (f : SpecFloat.spec_float) : Z :=
  match f with
  | SpecFloat.S754_zero _ => 0
  | SpecFloat.S754_finite s m e =>
      let mag := Z.shiftl (Zpos m) e in
      let v := if s then - mag else mag in
      if (int_min <=? v) && (v <=? int_max) then v else int_min
  | _ => int_min
  end.

(** The binary64 number 42.0. *)
Definition float64_42 : SpecFloat.spec_float :=
  SpecFloat.S754_finite false 5910974510923776 (-47).

(** Truncation toward zero of the rational [(-1)^s * m * 2^e], written as a
    quotient of integers. *)
Definition truncate_toward_zero (s : bool) (m : positive) (e : Z) : Z :=
  Z.quot ((if s then Zneg m else Zpos m) * 2 ^ Z.max e 0) (2 ^ Z.max (- e) 0).

(** ** The countdown in seconds *)

(** [float64(n)] for an integer [n]: the nearest binary64 number, ties to
    even. *)
Definition float64_of_int (n : Z) : SpecFloat.spec_float :=
  SpecFloat.binary_normalize 53 1024 n 0 false.

(** [d.Seconds()] of the [time] package:
    [sec := d / Second; nsec := d % Second;
     return float64(sec) + float64(nsec)/1e9],
    with the division and remainder of Go, which truncate. *)
Definition Seconds (d : Z) : SpecFloat.spec_float :=
  SpecFloat.SFadd 53 1024
    (float64_of_int (Z.quot d Second))
    (SpecFloat.SFdiv 53 1024 (float64_of_int (Z.rem d Second))
                     (float64_of_int 1000000000)).

(** [countdown > 0] on a [float64]. *)
Definition float64_positive (f : SpecFloat.spec_float) : bool :=
  SpecFloat.SFltb (SpecFloat.S754_zero false) f.

(** [time.Duration(countdown) * time.Second]: the countdown cut to whole
    seconds, as a [Duration]. *)
Definition whole_seconds (countdown : SpecFloat.spec_float) : Z :=
  wrap_int (float64_to_int countdown * Second).

(** ** HTTP *)

Inductive Auth : Type :=
| BasicAuth (username password : string)
| Bearer (token : string).

Record Request : Type := mkRequest {
  Method : string;
  URL : string;
  Authorization : Auth;
  UserAgent : string;
  ContentType : string;
  ReqBody : string
}.

(** The parts of [http.Response] the program reads. [Header] is indexed by
    the names the source passes to [Get]. *)
Record Response : Type := mkResponse {
  StatusCode : Z;
  Status : string;
  Header : gmap string string;
  Body : Decoded
}.

(** [resp.Header.Get(key)]: the empty string when the header is absent. *)
Definition Header_Get (h : gmap string string) (key : string) : string :=
  default "" (h !! key).

(** [client.Do(req)]: an error or a response. *)
Inductive DoResult : Type :=
| DoError (err : string)
| DoResponse (resp : Response).

(** The network as the program sees it at one moment. *)
Definition Client : Type := Request -> DoResult.

(** ** Token acquisition *)

(** The two results of [FetchAccessToken], or a panic. *)
Inductive TokenResult : Type :=
| TokenReturn (token : string) (err : option string)
| TokenPanic (msg : string).

Definition token_request (clientID clientSecret : string) : Request :=
  mkRequest "POST" "https://www.reddit.com/api/v1/access_token"
            (BasicAuth clientID clientSecret) "RedditFetcherCLI"
            "application/x-www-form-urlencoded" "grant_type=client_credentials".

(** [func FetchAccessToken(client, clientID, clientSecret) (string, error)].
    [http.NewRequest] cannot fail on the constant method and URL. *)
Definition FetchAccessToken (client : Client) (clientID clientSecret : string)
  : TokenResult :=
  match client (token_request clientID clientSecret) with
  | DoError err => TokenReturn "" (Some err)
  | DoResponse resp =>
      if negb (Z.eqb (StatusCode resp) 200)
      then TokenReturn "" (Some (String.append "failed to get access token: "
                                            (Status resp)))
      else
        match Decode_map (Body resp) with
        | inl err => TokenReturn "" (Some err)
        | inr tokenResponse =>
            match as_string (jlookup "access_token" tokenResponse) with
            | inr token => TokenReturn token None
            | inl msg => TokenPanic msg
            end
        end
  end.

(** ** The fetcher *)

Definition listing_request (subreddit token : string) : Request :=
  mkRequest "GET"
            (String.append "https://www.reddit.com/r/"
                           (String.append subreddit "/new.json?limit=10"))
            (Bearer token) "RedditFetcherCLI" "" "".

(** The body of the loop over the children of the listing. *)
Definition post_of_child (child : JValue) : Checked RedditPost :=
  item <~ as_map child ;;
  postData <~ as_map (jlookup "data" item) ;;
  title <~ as_string (jlookup "title" postData) ;;
  author <~ as_string (jlookup "author" postData) ;;
  score <~ as_float64 (jlookup "score" postData) ;;
  inr (mkPost title author (float64_to_int score)).

(** The loop: [posts = append(posts, ...)] for each child in turn. *)
Fixpoint collect_posts (children : list JValue) (posts : list RedditPost)
  : Checked (list RedditPost) :=
  match children with
  | [] => inr posts
  | child :: rest =>
      post <~ post_of_child child ;;
      collect_posts rest (posts ++ [post])%list
  end.

(** [result["data"].(map[string]interface{})["children"].([]interface{})]
    and the loop over it. *)
Definition walk_listing (result : list (string * JValue))
  : Checked (list RedditPost) :=
  data <~ as_map (jlookup "data" result) ;;
  children <~ as_slice (jlookup "children" data) ;;
  collect_posts children [].

(** What [main] calls between two pauses; [EvResetWait] and [EvPause] carry
    the [Duration] passed to [time.Sleep]. *)
Inductive Event : Type :=
| EvFetch
| EvResetWait (countdown : Z)
| EvPause (d : Z).

Definition limitInterval : Z := 5 * Second.

(** How the process ends or goes on. *)
Inductive Process : Type :=
| Fatal (err : string)
| Crashed (msg : string)
| Running (r : result (list Event)).

Section Fetcher.

(** [fmt.Sscanf(s, "%d", &n)]: the number stored in [n], or [None] when
    the scan fails and [n] keeps its value. *)
Variable Sscanf_d : string -> option Z.

(** [strconv.ParseInt(s, 10, 64)]: the value returned next to the error
    the source drops. *)
Variable ParseInt : string -> Z.

(** The block on [X-RateLimit-Remaining]: it locks and defers the
    [Unlock] to the end of [FetchRedditData]. The result tells whether
    an [Unlock] is pending. *)
Definition read_remaining (remaining : string) : M bool :=
  if String.eqb remaining "" then ret false
  else
    Lock ;;
    modify (fun sm => match Sscanf_d remaining with
                      | Some n => set_remainingRequests n sm
                      | None => sm
                      end) ;;
    ret true.

(** The block on [X-RateLimit-Reset]; it takes no lock. *)
Definition read_reset (reset : string) : M unit :=
  if String.eqb reset "" then ret tt
  else modify (set_resetTime (Unix (ParseInt reset))).

(** The deferred calls that run when [FetchRedditData] returns. *)
Definition run_deferred (pending : bool) : M unit :=
  if pending then Unlock else ret tt.

(** [func FetchRedditData(client, subreddit, sm, token, wg)]. The caller
    waits on [wg] until the call is over, so the call is run in place;
    [http.NewRequest] is taken to accept the URL. *)
Definition FetchRedditData (client : Client) (subreddit token : string)
  : M unit :=
  match client (listing_request subreddit token) with
  | DoError err => ret tt
  | DoResponse resp =>
      if Z.eqb (StatusCode resp) 429 then ret tt
      else
        pending <- read_remaining (Header_Get (Header resp) "X-RateLimit-Remaining") ;;
        read_reset (Header_Get (Header resp) "X-RateLimit-Reset") ;;
        match Decode_map (Body resp) with
        | inl err => run_deferred pending
        | inr result =>
            posts <- lift (walk_listing result) ;;
            UpdateStats posts ;;
            run_deferred pending
        end
  end.

(** One turn of the loop of [main] when the clock reads [now] and the
    network answers as [client]. The reset wait is the sleep of
    [time.Duration(countdown) * time.Second], taken when the countdown in
    seconds is above 0. *)
Definition loop_iteration (token : string) (now : Time) (client : Client)
  : M (list Event) :=
  sm <- get ;;
  if remainingRequests sm >? 0 then
    FetchRedditData client "golang" token ;;
    ret [EvFetch; EvPause limitInterval]
  else
    let countdown := Seconds (Until (resetTime sm) now) in
    if float64_positive countdown
    then ret [EvResetWait (whole_seconds countdown); EvPause limitInterval]
    else ret [EvPause limitInterval].

(** The loop of [main] over the moments of [world], one per turn. *)
Fixpoint main_loop (token : string) (world : list (Time * Client))
  : M (list Event) :=
  match world with
  | [] => ret []
  | (now, client) :: rest =>
      evs <- loop_iteration token now client ;;
      more <- main_loop token rest ;;
      ret (evs ++ more)%list
  end.

(** [func main()]: the token, then the loop on a new [StatsManager]. The
    printing goroutine is left out. *)
Definition main (client0 : Client) (world : list (Time * Client)) : Process :=
  match FetchAccessToken client0 "ey9AWAIGj6rn18bQIecGRw"
                         "HcUzeI3XIHCYGeDjx3DIE_mwX9doGA" with
  | TokenReturn token None => Running (main_loop token world NewStatsManager)
  | TokenReturn _ (Some err) => Fatal err
  | TokenPanic msg => Crashed msg
  end.

End Fetcher.

(** The state after the two header blocks, entered with a free mutex. *)
Definition after_headers
  (Sscanf_d : string -> option Z) (ParseInt : string -> Z)
  (resp : Response) (sm : StatsManager) : StatsManager :=
  let remaining := Header_Get (Header resp) "X-RateLimit-Remaining" in
  let reset := Header_Get (Header resp) "X-RateLimit-Reset" in
  let sm1 :=
    if String.eqb remaining "" then sm
    else match Sscanf_d remaining with
         | Some n => set_remainingRequests n (set_mu true sm)
         | None => set_mu true sm
         end in
  if String.eqb reset "" then sm1
  else set_resetTime (Unix (ParseInt reset)) sm1.

(** ** What the specification counts *)

(** The number of posts of [posts] whose author is [A]. *)
Fixpoint posts_by (A : string) (posts : list RedditPost) : Z :=
  match posts with
  | [] => 0
  | p :: rest => (if String.eqb (Author p) A then 1 else 0) + posts_by A rest
  end.

(** The largest upvote count of [posts], and [floor] when none is above it. *)
Definition max_upvotes (floor : Z) (posts : list RedditPost) : Z :=
  fold_right (fun p acc => Z.max (Upvotes p) acc) floor posts.

(** [top] is the first post of the calls that carries their largest upvote
    count. *)
Definition first_maximum (calls : list (list RedditPost)) (top : RedditPost)
  : Prop :=
  exists before after,
    concat calls = (before ++ top :: after)%list /\
    Forall (fun p => Upvotes p < Upvotes top) before /\
    Forall (fun p => Upvotes p <= Upvotes top) after.

(** The count the counters hold for [A], 0 when [A] has no entry. *)
Definition count_of (A : string) (sm : StatsManager) : Z :=
  default 0 (TopUsers (stats sm) !! A).

(** The number of fetches among the events of the loop. *)
Fixpoint fetches (evs : list Event) : nat :=
  match evs with
  | [] => O
  | EvFetch :: rest => S (fetches rest)
  | _ :: rest => fetches rest
  end.

(** ** Sample inputs *)

(** A network that answers every request with [resp]. *)
Definition always (resp : Response) : Client := fun _ => DoResponse resp.

(** A scanner of plain decimal numerals, to stand for the two library
    parsers in examples. *)
Fixpoint digits_value (s : string) (acc : Z) : option Z :=
  match s with
  | EmptyString => Some acc
  | String c rest =>
      let d := Z.of_N (Ascii.N_of_ascii c) - 48 in
      if (0 <=? d) && (d <=? 9) then digits_value rest (10 * acc + d) else None
  end.

Definition scan_decimal (s : string) : option Z :=
  match s with
  | EmptyString => None
  | _ => digits_value s 0
  end.

Definition parse_decimal (s : string) : Z := default 0 (scan_decimal s).

(** A listing with one child: a post of alice whose score is 42.0. *)
Definition sample_child : JValue :=
  JObject [("kind", JString "t3");
           ("data", JObject [("title", JString "hello");
                             ("author", JString "alice");
                             ("score", JNumber float64_42)])].

Definition sample_listing : JValue :=
  JObject [("kind", JString "Listing");
           ("data", JObject [("children", JArray [sample_child])])].

(** A 200 answer with both rate-limit headers and [sample_listing]. *)
Definition sample_response : Response :=
  mkResponse 200 "200 OK"
             (<["X-RateLimit-Remaining" := "99"]>
                (<["X-RateLimit-Reset" := "1700000000"]> ∅))
             (DecodeValue sample_listing).

(** The same answer without rate-limit headers. *)
Definition sample_response_bare : Response :=
  mkResponse 200 "200 OK" ∅ (DecodeValue sample_listing).

(** A 200 answer whose body is the empty object. *)
Definition empty_object_response : Response :=
  mkResponse 200 "200 OK" ∅ (DecodeValue (JObject [])).

(** A 429 answer. *)
Definition too_many_requests : Response :=
  mkResponse 429 "429 Too Many Requests"
             (<["X-RateLimit-Remaining" := "0"]> ∅)
             (DecodeError "unexpected end of JSON input").

(** The binary64 number 7.5. *)
Definition float64_7_5 : SpecFloat.spec_float :=
  SpecFloat.S754_finite false 8444249301319680 (-50).

(** A child of bob whose score is 7.5. *)
Definition other_child : JValue :=
  JObject [("kind", JString "t3");
           ("data", JObject [("title", JString "first");
                             ("author", JString "bob");
                             ("score", JNumber float64_7_5)])].

(** The members of a listing with two children, [other_child] and then
    [sample_child]. *)
Definition two_children_result : list (string * JValue) :=
  [("kind", JString "Listing");
   ("data", JObject [("children", JArray [other_child; sample_child])])].

(** ** The printer *)

(** The line of [PrintStats] on the rate limit: the remaining requests or
    the notice that the limit is exceeded, each with the countdown to the
    reset when a reset time is known. The countdown is the [Duration]
    before it is printed in seconds. *)
Inductive RateLine : Type :=
| RateRemaining (n : Z) (countdown : option Z)
| RateExceeded (countdown : option Z).

Definition rate_limit_line (now : Time) (snap : Snapshot) : RateLine :=
  let countdown := option_map (fun t => Until t now) (snap_reset snap) in
  if snap_remaining snap >? 0
  then RateRemaining (snap_remaining snap) countdown
  else RateExceeded countdown.

(** [func StartStatsPrinting(sm, interval)]: the first [ticks] turns of the
    loop, each a sleep and a [PrintStats]. *)
Fixpoint StartStatsPrinting (ticks : nat) : M (list Snapshot) :=
  match ticks with
  | O => ret []
  | S n =>
      snap <- PrintStats ;;
      more <- StartStatsPrinting n ;;
      ret (snap :: more)
  end.

(** The events of one turn of the loop of [main] that finds no request
    left when the clock reads [now]: the pause, after a sleep of the
    countdown cut to whole seconds when the countdown is above 0. *)
Definition idle_turn (sm : StatsManager) (now : Time) : list Event :=
  if float64_positive (Seconds (Until (resetTime sm) now))
  then [EvResetWait (whole_seconds (Seconds (Until (resetTime sm) now)));
        EvPause limitInterval]
  else [EvPause limitInterval].

(** * Properties *)

(** ** The monad *)

Lemma set_stats_free (st : Stats) (sm : StatsManager) :
  mu sm = false ->
  set_mu false (set_stats st (set_mu true sm)) = set_stats st sm.
Proof. destruct sm as [m s r t]; simpl; intros ->; reflexivity. Qed.

(** On a free mutex [UpdateStats] returns, with the mutex free again and
    the posts folded into the statistics. *)
Lemma UpdateStats_free (posts : list RedditPost) (sm : StatsManager) :
  mu sm = false ->
  UpdateStats posts sm =
    Ok tt (set_stats (fold_left update_post posts (stats sm)) sm).
Proof.
  intros Hmu. unfold UpdateStats, bind, Lock, modify, Unlock.
  rewrite Hmu. cbn. f_equal. destruct sm as [m s r t]; simpl in *.
  subst m. reflexivity.
Qed.

(** On a held mutex [UpdateStats] never returns. *)
Lemma UpdateStats_held (posts : list RedditPost) (sm : StatsManager) :
  mu sm = true -> UpdateStats posts sm = Deadlock sm.
Proof. intros Hmu. unfold UpdateStats, bind, Lock. rewrite Hmu. reflexivity. Qed.

Lemma run_updates_free (calls : list (list RedditPost)) (sm : StatsManager) :
  mu sm = false ->
  run_updates calls sm =
    Ok tt (set_stats (fold_left update_post (concat calls) (stats sm)) sm).
Proof.
  revert sm. induction calls as [|posts rest IH]; intros sm Hmu.
  - cbn. destruct sm; reflexivity.
  - cbn [run_updates concat]. unfold bind at 1.
    rewrite (UpdateStats_free _ _ Hmu), IH by (destruct sm; exact Hmu).
    rewrite fold_left_app. destruct sm; reflexivity.
Qed.

(** ** The loop of [UpdateStats] *)

Lemma wrap_int_small (z : Z) : int_min <= z <= int_max -> wrap_int z = z.
Proof.
  unfold wrap_int, int_min, int_max. intros Hz.
  rewrite Z.mod_small by lia. lia.
Qed.

Lemma TopUsers_update_post (st : Stats) (p : RedditPost) :
  TopUsers (update_post st p) =
    <[Author p := wrap_int (default 0 (TopUsers st !! Author p) + 1)]>
      (TopUsers st).
Proof. unfold update_post. destruct (_ >? _); reflexivity. Qed.

Lemma MostUpvotedPost_update_post (st : Stats) (p : RedditPost) :
  MostUpvotedPost (update_post st p) =
    if Upvotes p >? Upvotes (MostUpvotedPost st) then p else MostUpvotedPost st.
Proof. unfold update_post. destruct (_ >? _); reflexivity. Qed.

Lemma posts_by_nonneg (A : string) (posts : list RedditPost) :
  0 <= posts_by A posts.
Proof.
  induction posts as [|p rest IH]; cbn; [lia|].
  destruct (String.eqb _ _); lia.
Qed.

Lemma posts_by_le_length (A : string) (posts : list RedditPost) :
  posts_by A posts <= Z.of_nat (length posts).
Proof.
  induction posts as [|p rest IH]; cbn [posts_by length]; [lia|].
  destruct (String.eqb _ _); lia.
Qed.

Lemma posts_by_app (A : string) (xs ys : list RedditPost) :
  posts_by A (xs ++ ys)%list = posts_by A xs + posts_by A ys.
Proof.
  induction xs as [|p rest IH]; cbn [posts_by app]; [lia|].
  rewrite IH. lia.
Qed.

(** The counter of [A] after the loop, as long as it stays an [int]. *)
Lemma fold_update_post_count (A : string) (posts : list RedditPost) :
  forall st : Stats,
    0 <= default 0 (TopUsers st !! A) ->
    default 0 (TopUsers st !! A) + posts_by A posts <= int_max ->
    TopUsers (fold_left update_post posts st) !! A =
      if posts_by A posts =? 0 then TopUsers st !! A
      else Some (default 0 (TopUsers st !! A) + posts_by A posts).
Proof.
  induction posts as [|p rest IH]; intros st Hlo Hhi.
  - reflexivity.
  - cbn [fold_left posts_by] in *.
    pose proof (posts_by_nonneg A rest) as Hrest.
    destruct (String.eqb_spec (Author p) A) as [Heq|Hne].
    + assert (Hnew : TopUsers (update_post st p) !! A =
                     Some (default 0 (TopUsers st !! A) + 1)).
      { rewrite TopUsers_update_post, Heq, lookup_insert_eq.
        rewrite wrap_int_small; [reflexivity|].
        unfold int_min, int_max in *. lia. }
      unfold default, id in *.
      rewrite IH; rewrite Hnew; [|lia|lia].
      destruct (Z.eqb_spec (posts_by A rest) 0) as [H0|H0];
        destruct (Z.eqb_spec (1 + posts_by A rest) 0); try lia;
        f_equal; lia.
    + assert (Hsame : TopUsers (update_post st p) !! A = TopUsers st !! A).
      { rewrite TopUsers_update_post. apply lookup_insert_ne. exact Hne. }
      rewrite IH; rewrite Hsame; [|lia|lia].
      replace (0 + posts_by A rest) with (posts_by A rest) by lia.
      reflexivity.
Qed.

Lemma max_upvotes_floor (a b : Z) (posts : list RedditPost) :
  max_upvotes (Z.max a b) posts = Z.max b (max_upvotes a posts).
Proof.
  induction posts as [|p rest IH]; cbn; [lia|].
  unfold max_upvotes in IH. rewrite IH. lia.
Qed.

(** The upvote count kept by the loop is the largest one met, the one it
    started with included. *)
Lemma fold_update_post_max (posts : list RedditPost) :
  forall st : Stats,
    Upvotes (MostUpvotedPost (fold_left update_post posts st)) =
      max_upvotes (Upvotes (MostUpvotedPost st)) posts.
Proof.
  induction posts as [|p rest IH]; intros st; [reflexivity|].
  cbn [fold_left]. rewrite IH, MostUpvotedPost_update_post.
  change (max_upvotes (Upvotes (MostUpvotedPost st)) (p :: rest))
    with (Z.max (Upvotes p) (max_upvotes (Upvotes (MostUpvotedPost st)) rest)).
  rewrite <- max_upvotes_floor.
  destruct (Z.gtb_spec (Upvotes p) (Upvotes (MostUpvotedPost st)));
    f_equal; lia.
Qed.

(** The loop either keeps the post it started with, which nothing exceeds,
    or ends on the first post that carries the largest count. *)
Lemma fold_update_post_position (posts : list RedditPost) :
  forall st : Stats,
    let top := MostUpvotedPost (fold_left update_post posts st) in
    (top = MostUpvotedPost st /\
     Forall (fun p => Upvotes p <= Upvotes (MostUpvotedPost st)) posts) \/
    (Upvotes (MostUpvotedPost st) < Upvotes top /\
     exists before after,
       posts = (before ++ top :: after)%list /\
       Forall (fun p => Upvotes p < Upvotes top) before /\
       Forall (fun p => Upvotes p <= Upvotes top) after).
Proof.
  induction posts as [|p rest IH]; intros st top.
  - left. split; [reflexivity | constructor].
  - subst top. cbn [fold_left].
    specialize (IH (update_post st p)). cbv zeta in IH.
    rewrite MostUpvotedPost_update_post in IH.
    destruct (Z.gtb_spec (Upvotes p) (Upvotes (MostUpvotedPost st))) as [Hgt|Hle].
    + destruct IH as [[Heq Hall] | [Hlt (before & after & Hsplit & Hb & Ha)]].
      * right. rewrite Heq. split; [lia|].
        exists [], rest. split; [reflexivity|]. split; [constructor | exact Hall].
      * right. split; [lia|].
        exists (p :: before), after. split; [rewrite Hsplit at 1; reflexivity|].
        split; [constructor; [lia | exact Hb] | exact Ha].
    + destruct IH as [[Heq Hall] | [Hlt (before & after & Hsplit & Hb & Ha)]].
      * left. split; [exact Heq|]. constructor; [lia | exact Hall].
      * right. split; [lia|].
        exists (p :: before), after. split; [rewrite Hsplit at 1; reflexivity|].
        split; [constructor; [lia | exact Hb] | exact Ha].
Qed.

Lemma max_upvotes_ge (floor : Z) (posts : list RedditPost) :
  floor <= max_upvotes floor posts /\
  Forall (fun p => Upvotes p <= max_upvotes floor posts) posts.
Proof.
  induction posts as [|p rest [IHf IHa]]; cbn.
  - split; [lia | constructor].
  - fold (max_upvotes floor rest). split; [lia|].
    constructor; [lia|].
    eapply Forall_impl; [exact IHa|]. cbn. intros q Hq. lia.
Qed.

(** ** Sequences of calls on a new aggregator *)

Lemma run_updates_new (calls : list (list RedditPost)) :
  run_updates calls NewStatsManager =
    Ok tt (set_stats (fold_left update_post (concat calls) (mkStats ∅ zeroPost))
                     NewStatsManager).
Proof. apply run_updates_free. reflexivity. Qed.

Lemma count_from_empty (A : string) (posts : list RedditPost) :
  Z.of_nat (length posts) <= int_max ->
  TopUsers (fold_left update_post posts (mkStats ∅ zeroPost)) !! A =
    if posts_by A posts =? 0 then None else Some (posts_by A posts).
Proof.
  intros Hlen. pose proof (posts_by_le_length A posts) as Hle.
  rewrite fold_update_post_count; cbn [TopUsers]; rewrite lookup_empty;
    cbn; [|lia|lia].
  destruct (posts_by A posts =? 0); reflexivity.
Qed.

Lemma count_of_from_empty (A : string) (posts : list RedditPost) :
  Z.of_nat (length posts) <= int_max ->
  default 0 (TopUsers (fold_left update_post posts (mkStats ∅ zeroPost)) !! A) =
    posts_by A posts.
Proof.
  intros Hlen. rewrite count_from_empty by exact Hlen.
  destruct (Z.eqb_spec (posts_by A posts) 0) as [H0|H0]; cbn; lia.
Qed.

(** C2, as amended: after any sequence of [UpdateStats] calls on a new
    aggregator the stored upvote count is the largest count passed, or 0
    when no count is above 0. When some count is above 0 the stored post
    is the first post, over all calls, that carries the largest count;
    otherwise the stored post is still the zero-valued record. *)
Theorem C2_top_post_is_maximum_above_zero (calls : list (list RedditPost)) :
  exists sm',
    run_updates calls NewStatsManager = Ok tt sm' /\
    Upvotes (MostUpvotedPost (stats sm')) = max_upvotes 0 (concat calls) /\
    ((MostUpvotedPost (stats sm') = zeroPost /\
      Forall (fun p => Upvotes p <= 0) (concat calls)) \/
     (0 < Upvotes (MostUpvotedPost (stats sm')) /\
      first_maximum calls (MostUpvotedPost (stats sm')))).
Proof.
  eexists. split; [apply run_updates_new|]. cbn [stats set_stats].
  split.
  - apply (fold_update_post_max (concat calls) (mkStats ∅ zeroPost)).
  - destruct (fold_update_post_position (concat calls) (mkStats ∅ zeroPost))
      as [[Heq Hall] | [Hlt Hpos]].
    + left. split; assumption.
    + right. split; [exact Hlt | exact Hpos].
Qed.

(** C2, as stated, fails: one call with one post of upvote count -5 leaves
    the zero-valued record in place, which is not a post of the call. *)
Lemma C2_negative_post_not_stored :
  ~ (exists sm',
       run_updates [[mkPost "t" "a" (-5)]] NewStatsManager = Ok tt sm' /\
       first_maximum [[mkPost "t" "a" (-5)]] (MostUpvotedPost (stats sm'))).
Proof.
  intros (sm' & Hrun & before & after & Hsplit & _).
  rewrite run_updates_new in Hrun. injection Hrun as <-.
  cbn in Hsplit.
  destruct before as [|q [|q' before]]; cbn in Hsplit; discriminate.
Qed.

(** C5: after any sequence of [UpdateStats] calls on a new aggregator that
    passes at most [int_max] posts, the counter of an author is the number
    of posts passed with that author, and the author has no entry when
    that number is 0. *)
Theorem C5_posts_per_author_exact (calls : list (list RedditPost)) (A : string) :
  Z.of_nat (length (concat calls)) <= int_max ->
  exists sm',
    run_updates calls NewStatsManager = Ok tt sm' /\
    TopUsers (stats sm') !! A =
      if posts_by A (concat calls) =? 0 then None
      else Some (posts_by A (concat calls)).
Proof.
  intros Hlen. eexists. split; [apply run_updates_new|].
  cbn [stats set_stats]. apply count_from_empty. exact Hlen.
Qed.

(** Two posts of alice with 5 and 10 upvotes in one call, then a post of
    bob: alice counts 2. *)
Lemma C5_posts_per_author_exact_witness :
  exists sm',
    run_updates [[mkPost "p1" "alice" 5; mkPost "p2" "alice" 10];
                 [mkPost "p3" "bob" 1]] NewStatsManager = Ok tt sm' /\
    TopUsers (stats sm') !! "alice" = Some 2.
Proof.
  apply (C5_posts_per_author_exact
           [[mkPost "p1" "alice" 5; mkPost "p2" "alice" 10];
            [mkPost "p3" "bob" 1]] "alice").
  vm_compute. discriminate.
Defined.

(** C6: every [UpdateStats] call on an aggregator reached from a new one
    keeps the stored upvote count at or above every count passed so far,
    before and after the call, and lowers no counter, as long as at most
    [int_max] posts have been passed. *)
Theorem C6_update_keeps_invariant
  (calls : list (list RedditPost)) (posts : list RedditPost) :
  Z.of_nat (length (concat (calls ++ [posts]))) <= int_max ->
  exists sm1 sm2,
    run_updates calls NewStatsManager = Ok tt sm1 /\
    UpdateStats posts sm1 = Ok tt sm2 /\
    Forall (fun p => Upvotes p <= Upvotes (MostUpvotedPost (stats sm1)))
           (concat calls) /\
    Forall (fun p => Upvotes p <= Upvotes (MostUpvotedPost (stats sm2)))
           (concat calls ++ posts) /\
    forall A, count_of A sm1 <= count_of A sm2.
Proof.
  intros Hlen. rewrite concat_app, length_app in Hlen. cbn [concat] in Hlen.
  rewrite app_nil_r in Hlen.
  eexists. eexists. split; [apply run_updates_new|].
  split; [apply UpdateStats_free; reflexivity|].
  cbn [stats set_stats]. rewrite <- fold_left_app.
  split; [|split].
  - rewrite fold_update_post_max. apply max_upvotes_ge.
  - rewrite fold_update_post_max. apply max_upvotes_ge.
  - intros A. unfold count_of. cbn [stats set_stats].
    rewrite !count_of_from_empty by (rewrite ?length_app; lia).
    rewrite posts_by_app. pose proof (posts_by_nonneg A posts). lia.
Qed.

Lemma C6_update_keeps_invariant_witness :
  exists sm1 sm2,
    run_updates [[mkPost "p1" "alice" 5]] NewStatsManager = Ok tt sm1 /\
    UpdateStats [mkPost "p2" "alice" 10; mkPost "p3" "bob" (-1)] sm1 =
      Ok tt sm2 /\
    Forall (fun p => Upvotes p <= Upvotes (MostUpvotedPost (stats sm1)))
           (concat [[mkPost "p1" "alice" 5]]) /\
    Forall (fun p => Upvotes p <= Upvotes (MostUpvotedPost (stats sm2)))
           (concat [[mkPost "p1" "alice" 5]] ++
            [mkPost "p2" "alice" 10; mkPost "p3" "bob" (-1)]) /\
    forall A, count_of A sm1 <= count_of A sm2.
Proof.
  apply (C6_update_keeps_invariant
           [[mkPost "p1" "alice" 5]]
           [mkPost "p2" "alice" 10; mkPost "p3" "bob" (-1)]).
  vm_compute. discriminate.
Defined.

(** C10: the stored post of a new aggregator is the zero-valued record,
    with upvote count 0; after any sequence of [UpdateStats] calls the
    stored count is not negative and the stored post is either that record
    or a post passed with a count above 0; a single post becomes the stored
    post exactly when its count is above 0. *)
Theorem C10_top_post_never_negative
  (calls : list (list RedditPost)) (p : RedditPost) :
  MostUpvotedPost (stats NewStatsManager) = mkPost "" "" 0 /\
  (exists sm',
     run_updates calls NewStatsManager = Ok tt sm' /\
     0 <= Upvotes (MostUpvotedPost (stats sm')) /\
     (MostUpvotedPost (stats sm') = zeroPost \/
      (0 < Upvotes (MostUpvotedPost (stats sm')) /\
       In (MostUpvotedPost (stats sm')) (concat calls)))) /\
  (exists sm1,
     UpdateStats [p] NewStatsManager = Ok tt sm1 /\
     MostUpvotedPost (stats sm1) = if Upvotes p >? 0 then p else zeroPost).
Proof.
  split; [reflexivity|]. split.
  - eexists. split; [apply run_updates_new|]. cbn [stats set_stats].
    destruct (fold_update_post_position (concat calls) (mkStats ∅ zeroPost))
      as [[Heq Hall] | [Hlt (before & after & Hsplit & _)]];
      cbn [MostUpvotedPost Upvotes zeroPost] in *.
    + rewrite Heq. cbn. split; [lia | left; reflexivity].
    + split; [lia|]. right. split; [exact Hlt|].
      rewrite Hsplit at 2. apply in_or_app. right. left. reflexivity.
  - eexists. split; [apply UpdateStats_free; reflexivity|].
    cbn [stats set_stats fold_left]. apply MostUpvotedPost_update_post.
Qed.

(** ** Conversion of the score *)

(** [float64_42] is what rounding 42 to binary64 gives. *)
Example float64_42_is_42 :
  SpecFloat.binary_normalize 53 1024 42 0 false = float64_42 /\
  SpecFloat.valid_binary 53 1024 float64_42 = true.
Proof. split; vm_compute; reflexivity. Qed.

Lemma shiftl_truncates (s : bool) (m : positive) (e : Z) :
  (if s then - Z.shiftl (Zpos m) e else Z.shiftl (Zpos m) e) =
    truncate_toward_zero s m e.
Proof.
  unfold truncate_toward_zero.
  destruct (Z.le_gt_cases 0 e) as [He|He].
  - rewrite Z.shiftl_mul_pow2 by lia.
    rewrite (Z.max_l e 0), (Z.max_r (- e) 0) by lia.
    rewrite Z.pow_0_r, Z.quot_1_r. destruct s; lia.
  - rewrite Z.shiftl_div_pow2 by lia.
    rewrite (Z.max_r e 0), (Z.max_l (- e) 0) by lia.
    rewrite Z.pow_0_r, Z.mul_1_r.
    assert (Hpow : 0 < 2 ^ (- e)) by (apply Z.pow_pos_nonneg; lia).
    destruct s.
    + change (Z.neg m) with (- Z.pos m).
      rewrite Z.quot_opp_l by lia.
      rewrite Z.quot_div_nonneg by lia. reflexivity.
    + rewrite Z.quot_div_nonneg by lia. reflexivity.
Qed.

(** A finite [float64] whose truncation fits an [int] converts to its
    truncation toward zero. *)
Lemma float64_to_int_finite (s : bool) (m : positive) (e : Z) :
  int_min <= truncate_toward_zero s m e <= int_max ->
  float64_to_int (SpecFloat.S754_finite s m e) = truncate_toward_zero s m e.
Proof.
  intros [Hlo Hhi]. unfold float64_to_int. cbv zeta.
  rewrite shiftl_truncates.
  destruct (Z.leb_spec int_min (truncate_toward_zero s m e)); [|lia].
  destruct (Z.leb_spec (truncate_toward_zero s m e) int_max); [|lia].
  reflexivity.
Qed.

(** Scores with a fraction lose it, toward zero on both sides. *)
Example float64_to_int_fractions :
  float64_to_int (SpecFloat.binary_normalize 53 1024 85 (-1) false) = 42 /\
  float64_to_int (SpecFloat.binary_normalize 53 1024 (-85) (-1) false) = -42 /\
  float64_to_int (SpecFloat.binary_normalize 53 1024 (-3) (-2) false) = 0.
Proof. repeat split; vm_compute; reflexivity. Qed.

(** ** Token acquisition *)

(** The error results of [FetchAccessToken]: a failed call, a status other
    than 200, a body that does not decode into the map. *)
Lemma FetchAccessToken_errors (client : Client) (clientID clientSecret : string) :
  (forall err, client (token_request clientID clientSecret) = DoError err ->
     FetchAccessToken client clientID clientSecret = TokenReturn "" (Some err)) /\
  (forall resp, client (token_request clientID clientSecret) = DoResponse resp ->
     StatusCode resp <> 200 ->
     exists err, FetchAccessToken client clientID clientSecret =
                   TokenReturn "" (Some err)) /\
  (forall resp err, client (token_request clientID clientSecret) = DoResponse resp ->
     StatusCode resp = 200 ->
     Decode_map (Body resp) = inl err ->
     FetchAccessToken client clientID clientSecret = TokenReturn "" (Some err)).
Proof.
  unfold FetchAccessToken. repeat split.
  - intros err ->. reflexivity.
  - intros resp -> Hne.
    destruct (Z.eqb_spec (StatusCode resp) 200) as [|_]; [contradiction|].
    cbn. eexists. reflexivity.
  - intros resp err -> -> ->. reflexivity.
Qed.

(** A 200 answer whose object holds a string [access_token] gives it. *)
Lemma FetchAccessToken_token
  (client : Client) (clientID clientSecret : string) (resp : Response)
  (tokenResponse : list (string * JValue)) (token : string) :
  client (token_request clientID clientSecret) = DoResponse resp ->
  StatusCode resp = 200 ->
  Decode_map (Body resp) = inr tokenResponse ->
  jlookup "access_token" tokenResponse = JString token ->
  FetchAccessToken client clientID clientSecret = TokenReturn token None.
Proof.
  intros Hdo Hst Hdec Htok. unfold FetchAccessToken.
  rewrite Hdo, Hst, Hdec, Htok. reflexivity.
Qed.

(** C3, where the code departs from it: on a 200 answer whose body decodes
    into the map but holds no string [access_token], [FetchAccessToken]
    panics and returns no error value. *)
Theorem C3_token_field_not_string_panics
  (client : Client) (clientID clientSecret : string) (resp : Response)
  (tokenResponse : list (string * JValue)) :
  client (token_request clientID clientSecret) = DoResponse resp ->
  StatusCode resp = 200 ->
  Decode_map (Body resp) = inr tokenResponse ->
  (forall token, jlookup "access_token" tokenResponse <> JString token) ->
  exists msg, FetchAccessToken client clientID clientSecret = TokenPanic msg.
Proof.
  intros Hdo Hst Hdec Hno. unfold FetchAccessToken.
  rewrite Hdo, Hst, Hdec. cbn [Z.eqb negb].
  destruct (jlookup "access_token" tokenResponse) as [| | |token| |] eqn:Hl;
    cbn; try (eexists; reflexivity).
  exfalso. exact (Hno token eq_refl).
Qed.

(** The token endpoint answers 200 with the empty object. *)
Lemma C3_token_field_not_string_panics_witness :
  exists msg,
    FetchAccessToken (always empty_object_response) "id" "secret" =
      TokenPanic msg.
Proof.
  apply (C3_token_field_not_string_panics
           (always empty_object_response) "id" "secret"
           empty_object_response []); try reflexivity.
  intros token. cbn. discriminate.
Defined.

(** ** The fetcher *)

(** C8: on an answer of status 429 [FetchRedditData] returns with the
    state it was given: counters, stored post, remaining requests, reset
    time and mutex are those before the call. *)
Theorem C8_status_429_leaves_state
  (Sscanf_d : string -> option Z) (ParseInt : string -> Z)
  (client : Client) (subreddit token : string) (resp : Response)
  (sm : StatsManager) :
  client (listing_request subreddit token) = DoResponse resp ->
  StatusCode resp = 429 ->
  FetchRedditData Sscanf_d ParseInt client subreddit token sm = Ok tt sm.
Proof.
  intros Hdo Hst. unfold FetchRedditData. rewrite Hdo, Hst. reflexivity.
Qed.

Lemma C8_status_429_leaves_state_witness :
  FetchRedditData scan_decimal parse_decimal (always too_many_requests)
                  "golang" "token" (mkSM false (mkStats ∅ zeroPost) 7 12) =
    Ok tt (mkSM false (mkStats ∅ zeroPost) 7 12).
Proof.
  apply (C8_status_429_leaves_state scan_decimal parse_decimal
           (always too_many_requests) "golang" "token" too_many_requests);
    reflexivity.
Defined.

(** The same holds when the request itself fails. *)
Lemma FetchRedditData_transport_error
  (Sscanf_d : string -> option Z) (ParseInt : string -> Z)
  (client : Client) (subreddit token err : string) (sm : StatsManager) :
  client (listing_request subreddit token) = DoError err ->
  FetchRedditData Sscanf_d ParseInt client subreddit token sm = Ok tt sm.
Proof. intros Hdo. unfold FetchRedditData. rewrite Hdo. reflexivity. Qed.

Lemma after_headers_stats Sscanf_d ParseInt resp sm :
  stats (after_headers Sscanf_d ParseInt resp sm) = stats sm.
Proof.
  unfold after_headers. cbv zeta.
  destruct (String.eqb _ ""), (String.eqb _ ""); try destruct (Sscanf_d _);
    reflexivity.
Qed.

Lemma after_headers_mu Sscanf_d ParseInt resp sm :
  mu sm = false ->
  mu (after_headers Sscanf_d ParseInt resp sm) =
    negb (String.eqb (Header_Get (Header resp) "X-RateLimit-Remaining") "").
Proof.
  intros Hmu. unfold after_headers. cbv zeta.
  destruct (String.eqb _ ""), (String.eqb _ ""); try destruct (Sscanf_d _);
    cbn; try exact Hmu; reflexivity.
Qed.

(** [FetchRedditData] on an answer that is not a 429, entered with a free
    mutex: the header blocks run, and the rest starts from [after_headers]
    with an [Unlock] pending exactly when the first header was there. *)
Lemma FetchRedditData_past_headers
  (Sscanf_d : string -> option Z) (ParseInt : string -> Z)
  (client : Client) (subreddit token : string) (resp : Response)
  (sm : StatsManager) :
  client (listing_request subreddit token) = DoResponse resp ->
  StatusCode resp <> 429 ->
  mu sm = false ->
  FetchRedditData Sscanf_d ParseInt client subreddit token sm =
    (match Decode_map (Body resp) with
     | inl err => run_deferred (mu (after_headers Sscanf_d ParseInt resp sm))
     | inr result =>
         posts <- lift (walk_listing result) ;;
         UpdateStats posts ;;
         run_deferred (mu (after_headers Sscanf_d ParseInt resp sm))
     end) (after_headers Sscanf_d ParseInt resp sm).
Proof.
  intros Hdo Hst Hmu. unfold FetchRedditData. rewrite Hdo.
  destruct (Z.eqb_spec (StatusCode resp) 429) as [|_]; [contradiction|].
  rewrite (after_headers_mu Sscanf_d ParseInt resp sm Hmu).
  destruct sm as [m st r t]. cbn in Hmu. subst m.
  unfold after_headers, read_remaining, read_reset, bind, Lock, modify, ret.
  cbv zeta.
  destruct (String.eqb (Header_Get (Header resp) "X-RateLimit-Remaining") "");
    destruct (String.eqb (Header_Get (Header resp) "X-RateLimit-Reset") "");
    cbn; try destruct (Sscanf_d _); reflexivity.
Qed.

(** A body that does not decode ends the cycle with a normal return: the
    statistics are those before the call and the mutex is free again. *)
Lemma FetchRedditData_decode_error
  (Sscanf_d : string -> option Z) (ParseInt : string -> Z)
  (client : Client) (subreddit token : string) (resp : Response)
  (err : string) (sm : StatsManager) :
  client (listing_request subreddit token) = DoResponse resp ->
  StatusCode resp <> 429 ->
  mu sm = false ->
  Decode_map (Body resp) = inl err ->
  exists sm',
    FetchRedditData Sscanf_d ParseInt client subreddit token sm = Ok tt sm' /\
    stats sm' = stats sm /\ mu sm' = false.
Proof.
  intros Hdo Hst Hmu Hdec.
  rewrite (FetchRedditData_past_headers _ _ _ _ _ _ _ Hdo Hst Hmu), Hdec.
  pose proof (after_headers_stats Sscanf_d ParseInt resp sm) as Hstats.
  unfold run_deferred, Unlock, ret.
  destruct (mu (after_headers Sscanf_d ParseInt resp sm)) eqn:Hheld.
  - rewrite Hheld. eexists. split; [reflexivity|]. cbn. split; [exact Hstats | reflexivity].
  - eexists. split; [reflexivity|]. split; [exact Hstats | exact Hheld].
Qed.

(** Without the [X-RateLimit-Remaining] header a well-formed listing is
    recorded: its posts are folded into the statistics. *)
Lemma FetchRedditData_records_posts
  (Sscanf_d : string -> option Z) (ParseInt : string -> Z)
  (client : Client) (subreddit token : string) (resp : Response)
  (result : list (string * JValue)) (posts : list RedditPost)
  (sm : StatsManager) :
  client (listing_request subreddit token) = DoResponse resp ->
  StatusCode resp <> 429 ->
  mu sm = false ->
  Header_Get (Header resp) "X-RateLimit-Remaining" = "" ->
  Decode_map (Body resp) = inr result ->
  walk_listing result = inr posts ->
  exists sm',
    FetchRedditData Sscanf_d ParseInt client subreddit token sm = Ok tt sm' /\
    stats sm' = fold_left update_post posts (stats sm) /\ mu sm' = false.
Proof.
  intros Hdo Hst Hmu Hhdr Hdec Hwalk.
  rewrite (FetchRedditData_past_headers _ _ _ _ _ _ _ Hdo Hst Hmu), Hdec.
  pose proof (after_headers_stats Sscanf_d ParseInt resp sm) as Hstats.
  pose proof (after_headers_mu Sscanf_d ParseInt resp sm Hmu) as Hfree.
  rewrite Hhdr in Hfree. cbn in Hfree.
  unfold bind, lift. rewrite Hwalk.
  rewrite (UpdateStats_free _ _ Hfree). rewrite Hfree. cbn.
  eexists. split; [reflexivity|]. cbn. rewrite Hstats.
  split; [reflexivity | exact Hfree].
Qed.

(** The walk fails when [data] is not an object or [children] is not an
    array. *)
Lemma walk_listing_shape_errors (result : list (string * JValue)) :
  ((forall kvs, jlookup "data" result <> JObject kvs) ->
   exists msg, walk_listing result = inl msg) /\
  (forall data, jlookup "data" result = JObject data ->
                (forall xs, jlookup "children" data <> JArray xs) ->
                exists msg, walk_listing result = inl msg).
Proof.
  unfold walk_listing. split.
  - intros Hno. destruct (jlookup "data" result) as [| | | | |kvs];
      cbn; try (eexists; reflexivity).
    exfalso. exact (Hno kvs eq_refl).
  - intros data -> Hno. cbn.
    destruct (jlookup "children" data) as [| | | |xs|];
      cbn; try (eexists; reflexivity).
    exfalso. exact (Hno xs eq_refl).
Qed.

(** C4, where the code departs from it: when the body decodes but the walk
    of the listing meets a missing or ill-typed field, [FetchRedditData]
    panics; it does not return. *)
Theorem C4_unexpected_field_panics
  (Sscanf_d : string -> option Z) (ParseInt : string -> Z)
  (client : Client) (subreddit token : string) (resp : Response)
  (result : list (string * JValue)) (msg : string) (sm : StatsManager) :
  client (listing_request subreddit token) = DoResponse resp ->
  StatusCode resp <> 429 ->
  mu sm = false ->
  Decode_map (Body resp) = inr result ->
  walk_listing result = inl msg ->
  FetchRedditData Sscanf_d ParseInt client subreddit token sm = Panic msg.
Proof.
  intros Hdo Hst Hmu Hdec Hwalk.
  rewrite (FetchRedditData_past_headers _ _ _ _ _ _ _ Hdo Hst Hmu), Hdec.
  unfold bind, lift. rewrite Hwalk. reflexivity.
Qed.

(** The listing endpoint answers 200 with the empty object. *)
Lemma C4_unexpected_field_panics_witness :
  FetchRedditData scan_decimal parse_decimal (always empty_object_response)
                  "golang" "token" NewStatsManager =
    Panic "interface conversion: interface {} is not map[string]interface {}".
Proof.
  apply (C4_unexpected_field_panics scan_decimal parse_decimal
           (always empty_object_response) "golang" "token"
           empty_object_response []); try reflexivity.
  vm_compute. discriminate.
Defined.

(** C9, where the code departs from it: on an answer that carries
    [X-RateLimit-Remaining] and a well-formed listing, [FetchRedditData]
    still holds the mutex when it calls [UpdateStats], which waits for it
    for ever: the call never returns, the mutex stays held and the posts
    are not recorded. *)
Theorem C9_fetch_locks_mutex_twice
  (Sscanf_d : string -> option Z) (ParseInt : string -> Z)
  (client : Client) (subreddit token : string) (resp : Response)
  (result : list (string * JValue)) (posts : list RedditPost)
  (sm : StatsManager) :
  client (listing_request subreddit token) = DoResponse resp ->
  StatusCode resp <> 429 ->
  mu sm = false ->
  Header_Get (Header resp) "X-RateLimit-Remaining" <> "" ->
  Decode_map (Body resp) = inr result ->
  walk_listing result = inr posts ->
  exists sm',
    FetchRedditData Sscanf_d ParseInt client subreddit token sm = Deadlock sm' /\
    mu sm' = true /\ stats sm' = stats sm.
Proof.
  intros Hdo Hst Hmu Hhdr Hdec Hwalk.
  rewrite (FetchRedditData_past_headers _ _ _ _ _ _ _ Hdo Hst Hmu), Hdec.
  pose proof (after_headers_stats Sscanf_d ParseInt resp sm) as Hstats.
  pose proof (after_headers_mu Sscanf_d ParseInt resp sm Hmu) as Hheld.
  destruct (String.eqb_spec (Header_Get (Header resp) "X-RateLimit-Remaining") "")
    as [Hempty|_]; [contradiction|].
  cbn in Hheld.
  unfold bind, lift. rewrite Hwalk.
  rewrite (UpdateStats_held _ _ Hheld).
  eexists. split; [reflexivity|]. split; [exact Hheld | exact Hstats].
Qed.

(** The listing endpoint answers 200 with both rate-limit headers and a
    listing of one post. *)
Lemma C9_fetch_locks_mutex_twice_witness :
  exists sm',
    FetchRedditData scan_decimal parse_decimal (always sample_response)
                    "golang" "token" NewStatsManager = Deadlock sm' /\
    mu sm' = true /\ stats sm' = stats NewStatsManager.
Proof.
  apply (C9_fetch_locks_mutex_twice scan_decimal parse_decimal
           (always sample_response) "golang" "token" sample_response
           [("kind", JString "Listing");
            ("data", JObject [("children", JArray [sample_child])])]
           [mkPost "hello" "alice" 42]); try reflexivity.
  - vm_compute. discriminate.
  - vm_compute. discriminate.
Defined.

(** ** The countdown in seconds *)

Lemma binary_round_aux_sign (sx : bool) (m e : Z) (l : SpecFloat.location) :
  float64_positive (SpecFloat.binary_round_aux 53 1024 sx m e l) = true ->
  sx = false.
Proof.
  unfold SpecFloat.binary_round_aux.
  destruct (SpecFloat.shr_fexp 53 1024 m e l) as [mrs' e'].
  destruct (SpecFloat.shr_fexp 53 1024 _ e' SpecFloat.loc_Exact) as [mrs'' e''].
  destruct (SpecFloat.shr_m mrs'') as [|q|q]; [| |discriminate].
  - destruct sx; [discriminate | reflexivity].
  - destruct (e'' <=? 1024 - 53); destruct sx; (discriminate || reflexivity).
Qed.

Lemma binary_round_sign (sx : bool) (m : positive) (e : Z) :
  float64_positive (SpecFloat.binary_round 53 1024 sx m e) = true ->
  sx = false.
Proof.
  unfold SpecFloat.binary_round.
  destruct (SpecFloat.shl_align m e _) as [mz ez].
  apply binary_round_aux_sign.
Qed.

Lemma float64_of_int_not_positive (z : Z) :
  z <= 0 -> float64_positive (float64_of_int z) = false.
Proof.
  intros Hz. destruct z as [|q|q]; [reflexivity | lia |].
  unfold float64_of_int, SpecFloat.binary_normalize.
  destruct (float64_positive (SpecFloat.binary_round 53 1024 true q 0))
    eqn:Hpos; [|reflexivity].
  apply binary_round_sign in Hpos. discriminate.
Qed.

Lemma SFdiv_not_positive (x : SpecFloat.spec_float) :
  float64_positive x = false ->
  float64_positive (SpecFloat.SFdiv 53 1024 x (float64_of_int 1000000000)) = false.
Proof.
  intros Hx.
  change (float64_of_int 1000000000)
    with (SpecFloat.S754_finite false 8388608000000000 (-23)).
  destruct x as [s|s| |s m e]; cbn [SpecFloat.SFdiv]; try reflexivity.
  - destruct s; [reflexivity | discriminate].
  - destruct s; [|discriminate].
    clear Hx.
    destruct (SpecFloat.SFdiv_core_binary _ _ _ _ _ _) as [[mz ez] lz].
    cbn [xorb].
    destruct (float64_positive (SpecFloat.binary_round_aux 53 1024 true mz ez lz))
      eqn:Hpos; [|reflexivity].
    apply binary_round_aux_sign in Hpos. discriminate.
Qed.

Lemma SFadd_not_positive (x y : SpecFloat.spec_float) :
  float64_positive x = false ->
  float64_positive y = false ->
  float64_positive (SpecFloat.SFadd 53 1024 x y) = false.
Proof.
  intros Hx Hy.
  destruct x as [sx|sx| |sx mx ex], y as [sy|sy| |sy my ey];
    cbn [SpecFloat.SFadd]; try assumption; try reflexivity;
    try (destruct sx, sy; (assumption || reflexivity || discriminate)).
  destruct sx; [|discriminate]. destruct sy; [|discriminate]. clear Hx Hy.
  destruct (SpecFloat.shl_align mx ex _) as [ax ez1].
  destruct (SpecFloat.shl_align my ey _) as [ay ez2].
  cbn [fst SpecFloat.cond_Zopp].
  change (- Z.pos ax + - Z.pos ay) with (Z.neg (ax + ay)).
  cbn [SpecFloat.binary_normalize].
  destruct (float64_positive
              (SpecFloat.binary_round 53 1024 true (ax + ay) (Z.min ex ey)))
    eqn:Hpos; [|reflexivity].
  apply binary_round_sign in Hpos. discriminate.
Qed.

(** A [Duration] that is not above 0 has no positive countdown. *)
Lemma Seconds_not_positive (d : Z) :
  d <= 0 -> float64_positive (Seconds d) = false.
Proof.
  intros Hd. unfold Seconds.
  assert (Hq : Z.quot d Second <= 0)
    by (apply Z.quot_le_upper_bound; unfold Second; lia).
  assert (Hr : Z.rem d Second <= 0)
    by (apply Z.rem_nonpos; unfold Second; lia).
  apply SFadd_not_positive.
  - apply float64_of_int_not_positive. exact Hq.
  - apply SFdiv_not_positive, float64_of_int_not_positive. exact Hr.
Qed.

Lemma digits2_pos_iter (p d : positive) :
  SpecFloat.digits2_pos (Pos.iter xO p d) = (SpecFloat.digits2_pos p + d)%positive.
Proof.
  induction d as [|d IH] using Pos.peano_ind.
  - cbn. rewrite Pos.add_1_r. reflexivity.
  - rewrite Pos.iter_succ. cbn [SpecFloat.digits2_pos].
    rewrite IH, Pos.add_succ_r. reflexivity.
Qed.

Lemma digits2_pos_lower (p : positive) :
  2 ^ (Z.pos (SpecFloat.digits2_pos p) - 1) <= Z.pos p.
Proof.
  induction p as [p IH|p IH|]; cbn [SpecFloat.digits2_pos].
  - rewrite Pos2Z.inj_succ.
    replace (Z.succ (Z.pos (SpecFloat.digits2_pos p)) - 1)
      with (Z.succ (Z.pos (SpecFloat.digits2_pos p) - 1)) by lia.
    rewrite Z.pow_succ_r by lia. lia.
  - rewrite Pos2Z.inj_succ.
    replace (Z.succ (Z.pos (SpecFloat.digits2_pos p)) - 1)
      with (Z.succ (Z.pos (SpecFloat.digits2_pos p) - 1)) by lia.
    rewrite Z.pow_succ_r by lia. lia.
  - cbn. lia.
Qed.

Lemma digits2_pos_bound (p : positive) (n : Z) :
  Z.pos p < 2 ^ n -> Z.pos (SpecFloat.digits2_pos p) <= n.
Proof.
  intros Hp. destruct (Z.le_gt_cases (Z.pos (SpecFloat.digits2_pos p)) n)
    as [Hle|Hgt]; [exact Hle|].
  pose proof (digits2_pos_lower p) as Hlow.
  assert (Hn : 0 <= n).
  { destruct (Z.le_gt_cases 0 n) as [H0|H0]; [exact H0|].
    rewrite Z.pow_neg_r in Hp by lia. lia. }
  assert (2 ^ n <= 2 ^ (Z.pos (SpecFloat.digits2_pos p) - 1))
    by (apply Z.pow_le_mono_r; lia).
  lia.
Qed.

(** A mantissa of 53 digits with an exponent in range is left as it is. *)
Lemma binary_round_aux_canonical (sx : bool) (mz : positive) (ez : Z) :
  SpecFloat.digits2_pos mz = 53%positive ->
  - 1074 <= ez <= 971 ->
  SpecFloat.binary_round_aux 53 1024 sx (Z.pos mz) ez SpecFloat.loc_Exact =
    SpecFloat.S754_finite sx mz ez.
Proof.
  intros Hdigits Hez.
  assert (Hshift : SpecFloat.fexp 53 1024 (Z.pos (SpecFloat.digits2_pos mz) + ez) - ez = 0).
  { rewrite Hdigits. unfold SpecFloat.fexp, SpecFloat.emin. lia. }
  unfold SpecFloat.binary_round_aux, SpecFloat.shr_fexp.
  cbn [SpecFloat.Zdigits2 SpecFloat.shr_record_of_loc].
  rewrite Hshift. cbn [SpecFloat.shr SpecFloat.shr_m SpecFloat.loc_of_shr_record
                         SpecFloat.round_nearest_even SpecFloat.Zdigits2
                         SpecFloat.shr_record_of_loc].
  rewrite Hshift. cbn [SpecFloat.shr SpecFloat.shr_m].
  destruct (Z.leb_spec ez (1024 - 53)) as [_|Hbad]; [reflexivity | lia].
Qed.

(** An integer below [2^53] converts to the [float64] of the same value. *)
Lemma float64_of_int_exact (p : positive) :
  Z.pos p < 2 ^ 53 ->
  exists m e,
    float64_of_int (Z.pos p) = SpecFloat.S754_finite false m e /\
    Z.shiftl (Z.pos m) e = Z.pos p.
Proof.
  intros Hp. pose proof (digits2_pos_bound p 53 Hp) as HD.
  unfold float64_of_int, SpecFloat.binary_normalize, SpecFloat.binary_round.
  assert (Hfexp : SpecFloat.fexp 53 1024 (Z.pos (SpecFloat.digits2_pos p) + 0) =
                  Z.pos (SpecFloat.digits2_pos p) - 53).
  { unfold SpecFloat.fexp, SpecFloat.emin. lia. }
  rewrite Hfexp. unfold SpecFloat.shl_align.
  destruct (Z.pos (SpecFloat.digits2_pos p) - 53 - 0) as [|q|q] eqn:Hdiff.
  - exists p, 0. split; [|reflexivity].
    apply binary_round_aux_canonical; [|lia].
    apply Pos2Z.inj. lia.
  - lia.
  - exists (Pos.iter xO p q), (Z.pos (SpecFloat.digits2_pos p) - 53). split.
    + apply binary_round_aux_canonical; [|lia].
      rewrite digits2_pos_iter. apply Pos2Z.inj. rewrite Pos2Z.inj_add. lia.
    + rewrite Z.shiftl_div_pow2 by lia.
      change (Pos.iter xO p q) with (shift_pos q p).
      rewrite shift_pos_correct.
      replace (- (Z.pos (SpecFloat.digits2_pos p) - 53)) with (Z.pos q) by lia.
      change (Z.pow_pos 2 q) with (2 ^ Z.pos q).
      rewrite Z.mul_comm. apply Z.div_mul.
      apply Z.pow_nonzero; lia.
Qed.

(** The countdown of a positive whole number of seconds within the reach
    of a [Duration] is above 0 and is cut to that number. *)
Lemma Seconds_whole (k : Z) :
  0 < k <= 9223372036 ->
  float64_positive (Seconds (k * Second)) = true /\
  whole_seconds (Seconds (k * Second)) = k * Second.
Proof.
  intros Hk. unfold Seconds.
  rewrite Z.quot_mul, Z.rem_mul by (unfold Second; lia).
  destruct k as [|p|p]; try lia.
  destruct (float64_of_int_exact p) as (m & e & Hfloat & Hvalue).
  { assert (2 ^ 53 = 9007199254740992) by reflexivity. lia. }
  rewrite Hfloat.
  change (float64_of_int 0) with (SpecFloat.S754_zero false).
  change (float64_of_int 1000000000)
    with (SpecFloat.S754_finite false 8388608000000000 (-23)).
  cbn [SpecFloat.SFdiv SpecFloat.SFadd xorb].
  split; [reflexivity|].
  unfold whole_seconds, float64_to_int. cbv zeta. rewrite Hvalue.
  unfold int_min, int_max.
  destruct (Z.leb_spec (- 2 ^ 63) (Z.pos p)) as [_|Hbad]; [|lia].
  destruct (Z.leb_spec (Z.pos p) (2 ^ 63 - 1)) as [_|Hbad]; [|lia].
  cbn [andb]. apply wrap_int_small. unfold int_min, int_max, Second. lia.
Qed.

(** ** The loop of [main] *)

(** With no request left and a reset time that is not ahead of the clock,
    one turn of the loop sleeps for the pause only and changes nothing. *)
Lemma loop_iteration_no_reset_wait
  (Sscanf_d : string -> option Z) (ParseInt : string -> Z)
  (token : string) (now : Time) (client : Client) (sm : StatsManager) :
  remainingRequests sm <= 0 ->
  resetTime sm <= now ->
  loop_iteration Sscanf_d ParseInt token now client sm =
    Ok [EvPause limitInterval] sm.
Proof.
  intros Hrem Hreset. unfold loop_iteration, bind, get.
  destruct (Z.gtb_spec (remainingRequests sm) 0) as [|_]; [lia|].
  rewrite Seconds_not_positive; [reflexivity|].
  unfold Until, Sub, minDuration, maxDuration, int_min, int_max. lia.
Qed.

(** With no request left the loop never fetches, whatever the clock and
    the network do, and so the state never changes. *)
Lemma main_loop_starved
  (Sscanf_d : string -> option Z) (ParseInt : string -> Z)
  (token : string) (world : list (Time * Client)) (sm : StatsManager) :
  remainingRequests sm <= 0 ->
  exists evs,
    main_loop Sscanf_d ParseInt token world sm = Ok evs sm /\
    fetches evs = O.
Proof.
  intros Hrem. induction world as [|[now client] rest (more & Hmore & Hnone)].
  - exists []. split; reflexivity.
  - cbn [main_loop]. unfold bind at 1. unfold loop_iteration, bind at 1, get.
    destruct (Z.gtb_spec (remainingRequests sm) 0) as [|_]; [lia|].
    destruct (float64_positive (Seconds (Until (resetTime sm) now)));
      unfold ret at 1;
      unfold bind; rewrite Hmore; unfold ret; eexists;
      (split; [reflexivity | exact Hnone]).
Qed.

(** C1, where the code departs from it: started on a new [StatsManager],
    whose [remainingRequests] is 0 and whose [resetTime] is the zero time,
    the loop of [main] returns from every turn but performs no fetch in any
    number of turns, for every clock and every network, and the state stays
    the new one. *)
Theorem C1_loop_never_fetches_from_new
  (Sscanf_d : string -> option Z) (ParseInt : string -> Z)
  (token : string) (world : list (Time * Client)) :
  exists evs,
    main_loop Sscanf_d ParseInt token world NewStatsManager =
      Ok evs NewStatsManager /\
    fetches evs = O.
Proof. apply main_loop_starved. cbn. lia. Qed.

(** ** Runs on the sample inputs *)

(** Two posts of alice with 5 and 10 upvotes, in this order, in one call. *)
Example update_alice_twice :
  exists sm',
    UpdateStats [mkPost "p1" "alice" 5; mkPost "p2" "alice" 10]
                NewStatsManager = Ok tt sm' /\
    Upvotes (MostUpvotedPost (stats sm')) = 10 /\
    TopUsers (stats sm') !! "alice" = Some 2.
Proof.
  eexists. split; [apply UpdateStats_free; reflexivity|].
  split; vm_compute; reflexivity.
Qed.

(** A listing without rate-limit headers is recorded. *)
Example fetch_bare_listing :
  exists sm',
    FetchRedditData scan_decimal parse_decimal (always sample_response_bare)
                    "golang" "token" NewStatsManager = Ok tt sm' /\
    MostUpvotedPost (stats sm') = mkPost "hello" "alice" 42 /\
    TopUsers (stats sm') !! "alice" = Some 1 /\
    mu sm' = false.
Proof.
  destruct (FetchRedditData_records_posts scan_decimal parse_decimal
              (always sample_response_bare) "golang" "token"
              sample_response_bare
              [("kind", JString "Listing");
               ("data", JObject [("children", JArray [sample_child])])]
              [mkPost "hello" "alice" 42] NewStatsManager)
    as (sm' & Hrun & Hstats & Hmu); try reflexivity.
  - vm_compute. discriminate.
  - exists sm'. rewrite Hstats. split; [exact Hrun|].
    repeat split; try exact Hmu; vm_compute; reflexivity.
Qed.

(** A token endpoint that answers 403 ends the process before any fetch. *)
Example main_fatal_on_403 :
  forall world,
    main scan_decimal parse_decimal
         (always (mkResponse 403 "403 Forbidden" ∅ (DecodeError "EOF")))
         world =
      Fatal "failed to get access token: 403 Forbidden".
Proof. intros world. reflexivity. Qed.

(** With a token, the process runs the loop and never fetches. *)
Example main_with_token_never_fetches :
  forall world,
    exists evs,
      main scan_decimal parse_decimal
           (always (mkResponse 200 "200 OK" ∅
                      (DecodeValue (JObject [("access_token", JString "abc")]))))
           world = Running (Ok evs NewStatsManager) /\
      fetches evs = O.
Proof.
  intros world.
  destruct (main_loop_starved scan_decimal parse_decimal "abc" world
              NewStatsManager) as (evs & Hrun & Hnone); [cbn; lia|].
  exists evs. split; [|exact Hnone].
  unfold main. cbn. rewrite Hrun. reflexivity.
Qed.

(** * Further properties of the code *)

(** ** The aggregator on any state *)

Lemma fold_update_post_other (A : string) (posts : list RedditPost) :
  forall st : Stats,
    posts_by A posts = 0 ->
    TopUsers (fold_left update_post posts st) !! A = TopUsers st !! A.
Proof.
  induction posts as [|p rest IH]; intros st Hnone; [reflexivity|].
  cbn [fold_left posts_by] in *.
  pose proof (posts_by_nonneg A rest) as Hrest.
  destruct (String.eqb_spec (Author p) A) as [Heq|Hne]; [lia|].
  rewrite IH by lia. rewrite TopUsers_update_post.
  apply lookup_insert_ne. exact Hne.
Qed.

Lemma TopUsers_fold_ext (posts : list RedditPost) :
  forall st1 st2 : Stats,
    TopUsers st1 = TopUsers st2 ->
    TopUsers (fold_left update_post posts st1) =
      TopUsers (fold_left update_post posts st2).
Proof.
  induction posts as [|p rest IH]; intros st1 st2 Heq; [exact Heq|].
  cbn [fold_left]. apply IH. rewrite !TopUsers_update_post, Heq. reflexivity.
Qed.

Lemma TopUsers_update_post_swap (st : Stats) (x y : RedditPost) :
  TopUsers (update_post (update_post st x) y) =
    TopUsers (update_post (update_post st y) x).
Proof.
  rewrite !TopUsers_update_post.
  destruct (decide (Author x = Author y)) as [Heq|Hne].
  - rewrite Heq, !lookup_insert_eq. reflexivity.
  - rewrite (lookup_insert_ne _ (Author x) (Author y)) by exact Hne.
    rewrite (lookup_insert_ne _ (Author y) (Author x)) by (intros H; apply Hne; symmetry; exact H).
    apply insert_insert_ne. intros H. apply Hne. symmetry. exact H.
Qed.

Lemma TopUsers_fold_Permutation (xs ys : list RedditPost) :
  Permutation xs ys ->
  forall st : Stats,
    TopUsers (fold_left update_post xs st) =
      TopUsers (fold_left update_post ys st).
Proof.
  induction 1 as [|x l l' _ IH|x y l|l l' l'' _ IH1 _ IH2]; intros st.
  - reflexivity.
  - cbn [fold_left]. apply IH.
  - cbn [fold_left]. apply TopUsers_fold_ext, TopUsers_update_post_swap.
  - rewrite IH1. apply IH2.
Qed.

Lemma max_upvotes_Permutation (floor : Z) (xs ys : list RedditPost) :
  Permutation xs ys -> max_upvotes floor xs = max_upvotes floor ys.
Proof.
  induction 1 as [|x l l' _ IH|x y l|l l' l'' _ IH1 _ IH2]; cbn.
  - reflexivity.
  - fold (max_upvotes floor l) (max_upvotes floor l'). rewrite IH. reflexivity.
  - lia.
  - congruence.
Qed.

(** X1: Two [UpdateStats] calls in a row do what one call on the two slices
    put end to end does. *)
Theorem UpdateStats_calls_compose
  (xs ys : list RedditPost) (sm : StatsManager) :
  mu sm = false ->
  (UpdateStats xs ;; UpdateStats ys) sm = UpdateStats (xs ++ ys)%list sm.
Proof.
  intros Hmu. unfold bind.
  rewrite (UpdateStats_free xs sm Hmu).
  rewrite UpdateStats_free by (destruct sm; exact Hmu).
  rewrite (UpdateStats_free _ sm Hmu), fold_left_app.
  destruct sm; reflexivity.
Qed.

Lemma UpdateStats_calls_compose_witness :
  (UpdateStats [mkPost "p1" "alice" 5] ;; UpdateStats [mkPost "p2" "bob" 7])
    NewStatsManager =
  UpdateStats [mkPost "p1" "alice" 5; mkPost "p2" "bob" 7] NewStatsManager.
Proof.
  apply (UpdateStats_calls_compose [mkPost "p1" "alice" 5]
           [mkPost "p2" "bob" 7] NewStatsManager).
  reflexivity.
Defined.

(** X2: [UpdateStats] returns with the mutex free and touches nothing but the
    statistics: the rate-limit fields keep their values, and so does the
    entry of every author who wrote none of the posts. *)
Theorem UpdateStats_frame
  (posts : list RedditPost) (A : string) (sm : StatsManager) :
  mu sm = false ->
  posts_by A posts = 0 ->
  exists sm',
    UpdateStats posts sm = Ok tt sm' /\
    mu sm' = false /\
    remainingRequests sm' = remainingRequests sm /\
    resetTime sm' = resetTime sm /\
    TopUsers (stats sm') !! A = TopUsers (stats sm) !! A.
Proof.
  intros Hmu Hnone. eexists. split; [apply UpdateStats_free; exact Hmu|].
  cbn. repeat split; try assumption.
  apply fold_update_post_other. exact Hnone.
Qed.

Lemma UpdateStats_frame_witness :
  exists sm',
    UpdateStats [mkPost "p1" "alice" 5]
                (mkSM false (mkStats {["bob" := 3]} zeroPost) 7 12) = Ok tt sm' /\
    mu sm' = false /\
    remainingRequests sm' = 7 /\
    resetTime sm' = 12 /\
    TopUsers (stats sm') !! "bob" = Some 3.
Proof.
  exact (UpdateStats_frame [mkPost "p1" "alice" 5] "bob"
           (mkSM false (mkStats {["bob" := 3]} zeroPost) 7 12)
           eq_refl eq_refl).
Defined.

(** X3: From any state, the counter of an author grows by the number of posts
    of the call that the author wrote, as long as the sum is an [int]. *)
Theorem UpdateStats_adds_to_counter
  (posts : list RedditPost) (A : string) (sm : StatsManager) :
  mu sm = false ->
  0 <= count_of A sm ->
  count_of A sm + posts_by A posts <= int_max ->
  exists sm',
    UpdateStats posts sm = Ok tt sm' /\
    count_of A sm' = count_of A sm + posts_by A posts.
Proof.
  intros Hmu Hlo Hhi. eexists. split; [apply UpdateStats_free; exact Hmu|].
  unfold count_of in *. cbn [stats set_stats].
  rewrite fold_update_post_count by assumption.
  destruct (Z.eqb_spec (posts_by A posts) 0) as [H0|H0]; cbn; lia.
Qed.

Lemma UpdateStats_adds_to_counter_witness :
  exists sm',
    UpdateStats [mkPost "p1" "bob" 5; mkPost "p2" "bob" 1]
                (mkSM false (mkStats {["bob" := 3]} zeroPost) 7 12) = Ok tt sm' /\
    count_of "bob" sm' = 5.
Proof.
  refine (UpdateStats_adds_to_counter [mkPost "p1" "bob" 5; mkPost "p2" "bob" 1]
            "bob" (mkSM false (mkStats {["bob" := 3]} zeroPost) 7 12) _ _ _);
    vm_compute; try reflexivity; discriminate.
Defined.

(** X4: A counter that holds the largest [int] wraps to the smallest one on
    the next post of its author. *)
Theorem UpdateStats_counter_wraps (p : RedditPost) (sm : StatsManager) :
  mu sm = false ->
  TopUsers (stats sm) !! Author p = Some int_max ->
  exists sm',
    UpdateStats [p] sm = Ok tt sm' /\
    TopUsers (stats sm') !! Author p = Some int_min.
Proof.
  intros Hmu Hfull. eexists. split; [apply UpdateStats_free; exact Hmu|].
  cbn [stats set_stats fold_left].
  rewrite TopUsers_update_post, lookup_insert_eq, Hfull. reflexivity.
Qed.

Lemma UpdateStats_counter_wraps_witness :
  exists sm',
    UpdateStats [mkPost "p1" "bob" 5]
                (mkSM false (mkStats {["bob" := int_max]} zeroPost) 0 0) =
      Ok tt sm' /\
    TopUsers (stats sm') !! "bob" = Some int_min.
Proof.
  refine (UpdateStats_counter_wraps (mkPost "p1" "bob" 5)
            (mkSM false (mkStats {["bob" := int_max]} zeroPost) 0 0) _ _);
    reflexivity.
Defined.

(** X5: The counters and the stored upvote count after a call do not depend on
    the order of the posts in the slice. *)
Theorem UpdateStats_order_irrelevant
  (xs ys : list RedditPost) (sm : StatsManager) :
  mu sm = false ->
  Permutation xs ys ->
  exists sm1 sm2,
    UpdateStats xs sm = Ok tt sm1 /\
    UpdateStats ys sm = Ok tt sm2 /\
    TopUsers (stats sm1) = TopUsers (stats sm2) /\
    Upvotes (MostUpvotedPost (stats sm1)) = Upvotes (MostUpvotedPost (stats sm2)).
Proof.
  intros Hmu Hperm. eexists. eexists.
  split; [apply UpdateStats_free; exact Hmu|].
  split; [apply UpdateStats_free; exact Hmu|].
  cbn [stats set_stats]. split.
  - apply TopUsers_fold_Permutation. exact Hperm.
  - rewrite !fold_update_post_max. apply max_upvotes_Permutation. exact Hperm.
Qed.

Lemma UpdateStats_order_irrelevant_witness :
  exists sm1 sm2,
    UpdateStats [mkPost "p1" "alice" 5; mkPost "p2" "bob" 7] NewStatsManager =
      Ok tt sm1 /\
    UpdateStats [mkPost "p2" "bob" 7; mkPost "p1" "alice" 5] NewStatsManager =
      Ok tt sm2 /\
    TopUsers (stats sm1) = TopUsers (stats sm2) /\
    Upvotes (MostUpvotedPost (stats sm1)) = Upvotes (MostUpvotedPost (stats sm2)).
Proof.
  apply (UpdateStats_order_irrelevant
           [mkPost "p1" "alice" 5; mkPost "p2" "bob" 7]
           [mkPost "p2" "bob" 7; mkPost "p1" "alice" 5] NewStatsManager).
  - reflexivity.
  - apply perm_swap.
Defined.

(** The stored post itself does depend on the order when two posts tie. *)
Example stored_post_depends_on_order_of_ties :
  MostUpvotedPost (fold_left update_post
                     [mkPost "p1" "alice" 5; mkPost "p2" "bob" 5]
                     (mkStats ∅ zeroPost)) = mkPost "p1" "alice" 5 /\
  MostUpvotedPost (fold_left update_post
                     [mkPost "p2" "bob" 5; mkPost "p1" "alice" 5]
                     (mkStats ∅ zeroPost)) = mkPost "p2" "bob" 5.
Proof. split; reflexivity. Qed.

(** X6: From any state, the stored upvote count after a call is the largest of
    the count stored before and the counts of the call, and the stored
    post is the one stored before or a post of the call. *)
Theorem UpdateStats_stored_post_from_state
  (posts : list RedditPost) (sm : StatsManager) :
  mu sm = false ->
  exists sm',
    UpdateStats posts sm = Ok tt sm' /\
    Upvotes (MostUpvotedPost (stats sm')) =
      max_upvotes (Upvotes (MostUpvotedPost (stats sm))) posts /\
    (MostUpvotedPost (stats sm') = MostUpvotedPost (stats sm) \/
     In (MostUpvotedPost (stats sm')) posts).
Proof.
  intros Hmu. eexists. split; [apply UpdateStats_free; exact Hmu|].
  cbn [stats set_stats]. split; [apply fold_update_post_max|].
  destruct (fold_update_post_position posts (stats sm))
    as [[Heq _] | [_ (before & after & Hsplit & _)]].
  - left. exact Heq.
  - right. rewrite Hsplit at 2. apply in_or_app. right. left. reflexivity.
Qed.

Lemma UpdateStats_stored_post_from_state_witness :
  exists sm',
    UpdateStats [mkPost "p2" "bob" 7]
                (mkSM false (mkStats ∅ (mkPost "p1" "alice" 9)) 0 0) = Ok tt sm' /\
    Upvotes (MostUpvotedPost (stats sm')) = 9 /\
    (MostUpvotedPost (stats sm') = mkPost "p1" "alice" 9 \/
     In (MostUpvotedPost (stats sm')) [mkPost "p2" "bob" 7]).
Proof.
  refine (UpdateStats_stored_post_from_state [mkPost "p2" "bob" 7]
            (mkSM false (mkStats ∅ (mkPost "p1" "alice" 9)) 0 0) _).
  reflexivity.
Defined.

(** ** The printer *)

Lemma PrintStats_free (sm : StatsManager) :
  mu sm = false ->
  PrintStats sm =
    Ok (mkSnapshot
          (if String.eqb (Title (MostUpvotedPost (stats sm))) "" then None
           else Some (MostUpvotedPost (stats sm)))
          (TopUsers (stats sm)) (remainingRequests sm)
          (if Z.eqb (resetTime sm) 0 then None else Some (resetTime sm)))
       sm.
Proof.
  intros Hmu. destruct sm as [m st r t]. cbn in Hmu. subst m. reflexivity.
Qed.

Lemma PrintStats_held (sm : StatsManager) :
  mu sm = true -> PrintStats sm = Deadlock sm.
Proof. intros Hmu. unfold PrintStats, bind, Lock. rewrite Hmu. reflexivity. Qed.

(** X7: [PrintStats] changes nothing: on a free mutex it returns with the
    state it was given, the mutex free again, and what it read is the
    counters and the remaining requests of that state. *)
Theorem PrintStats_reads_without_change (sm : StatsManager) :
  mu sm = false ->
  exists snap,
    PrintStats sm = Ok snap sm /\
    snap_users snap = TopUsers (stats sm) /\
    snap_remaining snap = remainingRequests sm.
Proof.
  intros Hmu. eexists. split; [apply PrintStats_free; exact Hmu|].
  split; reflexivity.
Qed.

Lemma PrintStats_reads_without_change_witness :
  exists snap,
    PrintStats (mkSM false (mkStats {["bob" := 3]} zeroPost) 7 12) =
      Ok snap (mkSM false (mkStats {["bob" := 3]} zeroPost) 7 12) /\
    snap_users snap = {["bob" := 3]} /\
    snap_remaining snap = 7.
Proof.
  refine (PrintStats_reads_without_change
            (mkSM false (mkStats {["bob" := 3]} zeroPost) 7 12) _).
  reflexivity.
Defined.

(** X8: After any sequence of [UpdateStats] calls on a new aggregator,
    [PrintStats] shows as most upvoted post only a post that was passed
    with an upvote count above 0 and a title that is not empty; it shows
    none exactly when the title of the stored post is empty. *)
Theorem PrintStats_shows_passed_posts_only (calls : list (list RedditPost)) :
  exists sm' snap,
    run_updates calls NewStatsManager = Ok tt sm' /\
    PrintStats sm' = Ok snap sm' /\
    match snap_top snap with
    | Some top =>
        top = MostUpvotedPost (stats sm') /\
        In top (concat calls) /\ 0 < Upvotes top /\ Title top <> ""
    | None => Title (MostUpvotedPost (stats sm')) = ""
    end.
Proof.
  eexists. eexists. split; [apply run_updates_new|].
  split; [apply PrintStats_free; reflexivity|].
  cbn [snap_top stats set_stats].
  destruct (String.eqb_spec
              (Title (MostUpvotedPost
                        (fold_left update_post (concat calls)
                                   (mkStats ∅ zeroPost)))) "")
    as [Hempty|Hfull]; [exact Hempty|].
  destruct (fold_update_post_position (concat calls) (mkStats ∅ zeroPost))
    as [[Heq _] | [Hlt (before & after & Hsplit & _)]].
  - exfalso. apply Hfull. rewrite Heq. reflexivity.
  - split; [reflexivity|]. split; [|split; [exact Hlt | exact Hfull]].
    rewrite Hsplit at 2. apply in_or_app. right. left. reflexivity.
Qed.

(** A post with an empty title is stored like any other but never shown. *)
Example untitled_post_is_stored_but_not_shown :
  exists sm' snap,
    UpdateStats [mkPost "" "alice" 5] NewStatsManager = Ok tt sm' /\
    MostUpvotedPost (stats sm') = mkPost "" "alice" 5 /\
    PrintStats sm' = Ok snap sm' /\
    snap_top snap = None.
Proof.
  eexists. eexists. split; [apply UpdateStats_free; reflexivity|].
  split; [reflexivity|]. split; [apply PrintStats_free; reflexivity|].
  reflexivity.
Qed.

(** X9: As long as nothing is updated in between, the turns of the printing
    loop all read the same snapshot and leave the state as it was. *)
Theorem StartStatsPrinting_repeats_snapshot (ticks : nat) (sm : StatsManager) :
  mu sm = false ->
  exists snap,
    PrintStats sm = Ok snap sm /\
    StartStatsPrinting ticks sm = Ok (repeat snap ticks) sm.
Proof.
  intros Hmu. eexists. split; [apply PrintStats_free; exact Hmu|].
  induction ticks as [|n IH]; [reflexivity|].
  cbn [StartStatsPrinting repeat]. unfold bind at 1.
  rewrite (PrintStats_free sm Hmu). unfold bind. rewrite IH. reflexivity.
Qed.

Lemma StartStatsPrinting_repeats_snapshot_witness :
  exists snap,
    PrintStats NewStatsManager = Ok snap NewStatsManager /\
    StartStatsPrinting 3 NewStatsManager = Ok [snap; snap; snap] NewStatsManager.
Proof.
  refine (StartStatsPrinting_repeats_snapshot 3 NewStatsManager _).
  reflexivity.
Defined.

(** While the mutex is held the printing loop never gets past its first
    [PrintStats]. *)
Lemma StartStatsPrinting_held (ticks : nat) (sm : StatsManager) :
  mu sm = true ->
  StartStatsPrinting (S ticks) sm = Deadlock sm.
Proof.
  intros Hmu. cbn [StartStatsPrinting]. unfold bind at 1.
  rewrite (PrintStats_held sm Hmu). reflexivity.
Qed.

(** X10: With no request left and a reset time that has passed, [PrintStats]
    announces that the limit is exceeded together with a countdown below
    zero: the time since the reset, not clamped. *)
Theorem PrintStats_countdown_negative_after_reset
  (now : Time) (sm : StatsManager) :
  mu sm = false ->
  remainingRequests sm <= 0 ->
  resetTime sm <> 0 ->
  resetTime sm < now ->
  now - resetTime sm <= 2 ^ 63 ->
  exists snap,
    PrintStats sm = Ok snap sm /\
    rate_limit_line now snap = RateExceeded (Some (resetTime sm - now)) /\
    resetTime sm - now < 0.
Proof.
  intros Hmu Hrem Hset Hpast Hrange.
  eexists. split; [apply PrintStats_free; exact Hmu|].
  split; [|lia].
  unfold rate_limit_line. cbn [snap_remaining snap_reset].
  destruct (Z.gtb_spec (remainingRequests sm) 0) as [|_]; [lia|].
  destruct (Z.eqb_spec (resetTime sm) 0) as [|_]; [contradiction|].
  cbn [option_map]. do 2 f_equal.
  unfold Until, Sub, minDuration, maxDuration, int_min, int_max. lia.
Qed.

Lemma PrintStats_countdown_negative_after_reset_witness :
  exists snap,
    PrintStats (mkSM false (mkStats ∅ zeroPost) 0 1000) =
      Ok snap (mkSM false (mkStats ∅ zeroPost) 0 1000) /\
    rate_limit_line 4000 snap = RateExceeded (Some (-3000)) /\
    1000 - 4000 < 0.
Proof.
  refine (PrintStats_countdown_negative_after_reset 4000
            (mkSM false (mkStats ∅ zeroPost) 0 1000) _ _ _ _ _);
    vm_compute; try reflexivity; discriminate.
Defined.

(** ** The fetcher on any answer *)

Lemma after_headers_remaining Sscanf_d ParseInt resp sm :
  remainingRequests (after_headers Sscanf_d ParseInt resp sm) =
    if String.eqb (Header_Get (Header resp) "X-RateLimit-Remaining") ""
    then remainingRequests sm
    else default (remainingRequests sm)
                 (Sscanf_d (Header_Get (Header resp) "X-RateLimit-Remaining")).
Proof.
  unfold after_headers. cbv zeta.
  destruct (String.eqb _ ""), (String.eqb _ ""); try destruct (Sscanf_d _);
    reflexivity.
Qed.

Lemma after_headers_reset Sscanf_d ParseInt resp sm :
  resetTime (after_headers Sscanf_d ParseInt resp sm) =
    if String.eqb (Header_Get (Header resp) "X-RateLimit-Reset") ""
    then resetTime sm
    else Unix (ParseInt (Header_Get (Header resp) "X-RateLimit-Reset")).
Proof.
  unfold after_headers. cbv zeta.
  destruct (String.eqb _ ""), (String.eqb _ ""); try destruct (Sscanf_d _);
    reflexivity.
Qed.

(** X11: Entered with a free mutex, [FetchRedditData] either returns with the
    mutex free again, panics, or hangs with the mutex held. When it
    returns, the statistics are those before the call or those with every
    post of the listing recorded, never with a part of them; when it
    hangs, the statistics are those before the call. *)
Theorem FetchRedditData_outcomes
  (Sscanf_d : string -> option Z) (ParseInt : string -> Z)
  (client : Client) (subreddit token : string) (sm : StatsManager) :
  mu sm = false ->
  match FetchRedditData Sscanf_d ParseInt client subreddit token sm with
  | Ok _ sm' =>
      mu sm' = false /\
      (stats sm' = stats sm \/
       exists resp result posts,
         client (listing_request subreddit token) = DoResponse resp /\
         Decode_map (Body resp) = inr result /\
         walk_listing result = inr posts /\
         stats sm' = fold_left update_post posts (stats sm))
  | Panic _ => True
  | Deadlock sm' => mu sm' = true /\ stats sm' = stats sm
  end.
Proof.
  intros Hmu.
  destruct (client (listing_request subreddit token)) as [err|resp] eqn:Hdo.
  - rewrite (FetchRedditData_transport_error _ _ _ _ _ _ _ Hdo).
    split; [exact Hmu | left; reflexivity].
  - destruct (Z.eq_dec (StatusCode resp) 429) as [H429|Hst].
    + unfold FetchRedditData. rewrite Hdo, H429. cbn.
      split; [exact Hmu | left; reflexivity].
    + rewrite (FetchRedditData_past_headers _ _ _ _ _ _ _ Hdo Hst Hmu).
      pose proof (after_headers_stats Sscanf_d ParseInt resp sm) as Hstats.
      destruct (Decode_map (Body resp)) as [err|result] eqn:Hdec.
      * unfold run_deferred, Unlock, ret.
        destruct (mu (after_headers Sscanf_d ParseInt resp sm)) eqn:Hheld.
        -- rewrite Hheld. cbn. split; [reflexivity | left; exact Hstats].
        -- split; [exact Hheld | left; exact Hstats].
      * unfold bind, lift.
        destruct (walk_listing result) as [msg|posts] eqn:Hwalk; [exact I|].
        destruct (mu (after_headers Sscanf_d ParseInt resp sm)) eqn:Hheld.
        -- rewrite (UpdateStats_held _ _ Hheld).
           split; [exact Hheld | exact Hstats].
        -- rewrite (UpdateStats_free _ _ Hheld). cbn.
           split; [exact Hheld|]. right.
           exists resp, result, posts. rewrite Hstats. repeat split; assumption.
Qed.

Lemma FetchRedditData_outcomes_witness :
  match FetchRedditData scan_decimal parse_decimal (always sample_response_bare)
                        "golang" "token" NewStatsManager with
  | Ok _ sm' =>
      mu sm' = false /\
      (stats sm' = stats NewStatsManager \/
       exists resp result posts,
         always sample_response_bare (listing_request "golang" "token") =
           DoResponse resp /\
         Decode_map (Body resp) = inr result /\
         walk_listing result = inr posts /\
         stats sm' = fold_left update_post posts (stats NewStatsManager))
  | Panic _ => True
  | Deadlock sm' => mu sm' = true /\ stats sm' = stats NewStatsManager
  end.
Proof.
  refine (FetchRedditData_outcomes scan_decimal parse_decimal
            (always sample_response_bare) "golang" "token" NewStatsManager _).
  reflexivity.
Defined.

(** X12: When the body does not decode, the call still returns with what the
    rate-limit headers said: the remaining requests are the scanned number
    (the old value when the header is absent or does not scan), the reset
    time is the parsed epoch second (the old value when the header is
    absent), whatever they were before; the statistics are untouched. *)
Theorem FetchRedditData_headers_kept_on_decode_error
  (Sscanf_d : string -> option Z) (ParseInt : string -> Z)
  (client : Client) (subreddit token : string) (resp : Response)
  (err : string) (sm : StatsManager) :
  client (listing_request subreddit token) = DoResponse resp ->
  StatusCode resp <> 429 ->
  mu sm = false ->
  Decode_map (Body resp) = inl err ->
  exists sm',
    FetchRedditData Sscanf_d ParseInt client subreddit token sm = Ok tt sm' /\
    mu sm' = false /\
    stats sm' = stats sm /\
    remainingRequests sm' =
      (if String.eqb (Header_Get (Header resp) "X-RateLimit-Remaining") ""
       then remainingRequests sm
       else default (remainingRequests sm)
                    (Sscanf_d (Header_Get (Header resp) "X-RateLimit-Remaining"))) /\
    resetTime sm' =
      (if String.eqb (Header_Get (Header resp) "X-RateLimit-Reset") ""
       then resetTime sm
       else Unix (ParseInt (Header_Get (Header resp) "X-RateLimit-Reset"))).
Proof.
  intros Hdo Hst Hmu Hdec.
  rewrite (FetchRedditData_past_headers _ _ _ _ _ _ _ Hdo Hst Hmu), Hdec.
  pose proof (after_headers_stats Sscanf_d ParseInt resp sm) as Hstats.
  pose proof (after_headers_remaining Sscanf_d ParseInt resp sm) as Hrem.
  pose proof (after_headers_reset Sscanf_d ParseInt resp sm) as Hreset.
  unfold run_deferred, Unlock, ret.
  destruct (mu (after_headers Sscanf_d ParseInt resp sm)) eqn:Hheld.
  - rewrite Hheld. eexists. split; [reflexivity|]. cbn.
    repeat split; assumption.
  - eexists. split; [reflexivity|]. repeat split; assumption.
Qed.

(** A 200 answer with the headers [0] and [1700000000] and a broken body. *)
Lemma FetchRedditData_headers_kept_on_decode_error_witness :
  exists sm',
    FetchRedditData scan_decimal parse_decimal
      (always (mkResponse 200 "200 OK"
                 (<["X-RateLimit-Remaining" := "0"]>
                    (<["X-RateLimit-Reset" := "1700000000"]> ∅))
                 (DecodeError "unexpected EOF")))
      "golang" "token" (mkSM false (mkStats ∅ zeroPost) 55 0) = Ok tt sm' /\
    mu sm' = false /\
    stats sm' = mkStats ∅ zeroPost /\
    remainingRequests sm' = 0 /\
    resetTime sm' = (1700000000 + unixToInternal) * Second.
Proof.
  refine (FetchRedditData_headers_kept_on_decode_error
            scan_decimal parse_decimal _ "golang" "token"
            (mkResponse 200 "200 OK"
               (<["X-RateLimit-Remaining" := "0"]>
                  (<["X-RateLimit-Reset" := "1700000000"]> ∅))
               (DecodeError "unexpected EOF"))
            "unexpected EOF" (mkSM false (mkStats ∅ zeroPost) 55 0) _ _ _ _);
    try reflexivity.
  vm_compute. discriminate.
Defined.

(** X13: Without the [X-RateLimit-Remaining] header a well-formed listing is
    recorded whole: the call returns with the mutex free, the posts folded
    into the statistics in the order of the listing, the remaining
    requests unchanged and the reset time set from its header if any. *)
Theorem FetchRedditData_records_listing
  (Sscanf_d : string -> option Z) (ParseInt : string -> Z)
  (client : Client) (subreddit token : string) (resp : Response)
  (result : list (string * JValue)) (posts : list RedditPost)
  (sm : StatsManager) :
  client (listing_request subreddit token) = DoResponse resp ->
  StatusCode resp <> 429 ->
  mu sm = false ->
  Header_Get (Header resp) "X-RateLimit-Remaining" = "" ->
  Decode_map (Body resp) = inr result ->
  walk_listing result = inr posts ->
  exists sm',
    FetchRedditData Sscanf_d ParseInt client subreddit token sm = Ok tt sm' /\
    mu sm' = false /\
    stats sm' = fold_left update_post posts (stats sm) /\
    remainingRequests sm' = remainingRequests sm /\
    resetTime sm' =
      (if String.eqb (Header_Get (Header resp) "X-RateLimit-Reset") ""
       then resetTime sm
       else Unix (ParseInt (Header_Get (Header resp) "X-RateLimit-Reset"))).
Proof.
  intros Hdo Hst Hmu Hhdr Hdec Hwalk.
  rewrite (FetchRedditData_past_headers _ _ _ _ _ _ _ Hdo Hst Hmu), Hdec.
  pose proof (after_headers_stats Sscanf_d ParseInt resp sm) as Hstats.
  pose proof (after_headers_mu Sscanf_d ParseInt resp sm Hmu) as Hfree.
  pose proof (after_headers_remaining Sscanf_d ParseInt resp sm) as Hrem.
  pose proof (after_headers_reset Sscanf_d ParseInt resp sm) as Hreset.
  rewrite Hhdr in Hfree, Hrem. cbn in Hfree, Hrem.
  unfold bind, lift. rewrite Hwalk.
  rewrite (UpdateStats_free _ _ Hfree). rewrite Hfree. cbn.
  eexists. split; [reflexivity|]. cbn. rewrite Hstats.
  repeat split; assumption.
Qed.

Lemma FetchRedditData_records_listing_witness :
  exists sm',
    FetchRedditData scan_decimal parse_decimal (always sample_response_bare)
                    "golang" "token" (mkSM false (mkStats ∅ zeroPost) 55 12) =
      Ok tt sm' /\
    mu sm' = false /\
    stats sm' = fold_left update_post [mkPost "hello" "alice" 42]
                          (mkStats ∅ zeroPost) /\
    remainingRequests sm' = 55 /\
    resetTime sm' = 12.
Proof.
  refine (FetchRedditData_records_listing scan_decimal parse_decimal
            (always sample_response_bare) "golang" "token" sample_response_bare
            [("kind", JString "Listing");
             ("data", JObject [("children", JArray [sample_child])])]
            [mkPost "hello" "alice" 42]
            (mkSM false (mkStats ∅ zeroPost) 55 12) _ _ _ _ _ _);
    try reflexivity.
  vm_compute. discriminate.
Defined.

(** ** The walk of the listing *)

Lemma collect_posts_spec (children : list JValue) :
  forall acc posts : list RedditPost,
    collect_posts children acc = inr posts <->
    exists new,
      posts = (acc ++ new)%list /\
      Forall2 (fun child p => post_of_child child = inr p) children new.
Proof.
  induction children as [|child rest IH]; intros acc posts; cbn [collect_posts].
  - split.
    + intros [= <-]. exists []. split; [symmetry; apply app_nil_r | constructor].
    + intros (new & -> & Hall). inversion Hall. rewrite app_nil_r. reflexivity.
  - destruct (post_of_child child) as [msg|p] eqn:Hchild.
    + split; [discriminate|].
      intros (new & _ & Hall). inversion Hall; subst. congruence.
    + rewrite IH. split.
      * intros (new & -> & Hall). exists (p :: new).
        split; [rewrite <- app_assoc; reflexivity|].
        constructor; assumption.
      * intros (new & -> & Hall). inversion Hall as [|c q cs qs Hq Hrest]; subst.
        assert (q = p) as -> by congruence.
        exists qs. split; [rewrite <- app_assoc; reflexivity | exact Hrest].
Qed.

(** X14: The walk yields posts exactly when [data] is an object, its [children]
    an array and every child converts; the posts are then the children's,
    one for one and in the order of the listing. One child that does not
    convert loses the whole listing. *)
Theorem walk_listing_all_or_nothing
  (result : list (string * JValue)) (posts : list RedditPost) :
  walk_listing result = inr posts <->
  exists data children,
    jlookup "data" result = JObject data /\
    jlookup "children" data = JArray children /\
    Forall2 (fun child p => post_of_child child = inr p) children posts.
Proof.
  unfold walk_listing. split.
  - destruct (jlookup "data" result) as [| | | | |data]; cbn; try discriminate.
    destruct (jlookup "children" data) as [| | | |children|] eqn:Hch;
      cbn; try discriminate.
    intros Hcollect. apply collect_posts_spec in Hcollect.
    destruct Hcollect as (new & -> & Hall).
    exists data, children. repeat split; assumption.
  - intros (data & children & -> & Hch & Hall). cbn. rewrite Hch. cbn.
    apply collect_posts_spec. exists posts. split; [reflexivity | exact Hall].
Qed.

Lemma float64_to_int_range (f : SpecFloat.spec_float) :
  int_min <= float64_to_int f <= int_max.
Proof.
  assert (Hmin : int_min <= int_min <= int_max)
    by (unfold int_min, int_max; lia).
  destruct f as [s|s| |s m e]; cbn [float64_to_int]; try exact Hmin.
  - unfold int_min, int_max. lia.
  - cbv zeta.
    destruct (Z.leb_spec int_min (if s then - Z.shiftl (Z.pos m) e
                                  else Z.shiftl (Z.pos m) e));
      destruct (Z.leb_spec (if s then - Z.shiftl (Z.pos m) e
                            else Z.shiftl (Z.pos m) e) int_max);
      cbn [andb]; try exact Hmin.
    split; assumption.
Qed.

Lemma post_of_child_range (child : JValue) (p : RedditPost) :
  post_of_child child = inr p -> int_min <= Upvotes p <= int_max.
Proof.
  unfold post_of_child.
  destruct child as [| | | | |item]; cbn; try discriminate.
  destruct (jlookup "data" item) as [| | | | |postData]; cbn; try discriminate.
  destruct (jlookup "title" postData); cbn; try discriminate.
  destruct (jlookup "author" postData); cbn; try discriminate.
  destruct (jlookup "score" postData) as [| |f| | |]; cbn; try discriminate.
  intros [= <-]. apply float64_to_int_range.
Qed.

(** Every post of a walked listing has an upvote count that is an [int],
    whatever number the score was, NaN and the infinities included. *)
Lemma walk_listing_upvotes_in_range
  (result : list (string * JValue)) (posts : list RedditPost) :
  walk_listing result = inr posts ->
  Forall (fun p => int_min <= Upvotes p <= int_max) posts.
Proof.
  unfold walk_listing.
  destruct (jlookup "data" result) as [| | | | |data]; cbn; try discriminate.
  destruct (jlookup "children" data) as [| | | |children|];
    cbn; try discriminate.
  intros Hcollect. apply collect_posts_spec in Hcollect.
  destruct Hcollect as (new & -> & Hall). cbn.
  induction Hall as [|child p children posts Hchild _ IH]; constructor.
  - exact (post_of_child_range child p Hchild).
  - exact IH.
Qed.

(** Scores beyond [int64] or without a value convert to the smallest
    [int]. *)
Example float64_to_int_out_of_range :
  float64_to_int (SpecFloat.binary_normalize 53 1024 1 64 false) = int_min /\
  float64_to_int (SpecFloat.S754_infinity false) = int_min /\
  float64_to_int SpecFloat.S754_nan = int_min.
Proof. repeat split; vm_compute; reflexivity. Qed.

(** ** Token acquisition and [main] *)

(** X15: [FetchAccessToken] returns a token without an error exactly when the
    call succeeds with status 200 and a body that decodes into an object,
    or [null], whose [access_token] is that string. *)
Theorem FetchAccessToken_success_iff
  (client : Client) (clientID clientSecret token : string) :
  FetchAccessToken client clientID clientSecret = TokenReturn token None <->
  exists resp tokenResponse,
    client (token_request clientID clientSecret) = DoResponse resp /\
    StatusCode resp = 200 /\
    Decode_map (Body resp) = inr tokenResponse /\
    jlookup "access_token" tokenResponse = JString token.
Proof.
  split.
  - unfold FetchAccessToken.
    destruct (client (token_request clientID clientSecret)) as [err|resp]
      eqn:Hdo; [discriminate|].
    destruct (Z.eqb_spec (StatusCode resp) 200) as [Hst|Hst]; cbn [negb];
      [|discriminate].
    destruct (Decode_map (Body resp)) as [err|tokenResponse] eqn:Hdec;
      [discriminate|].
    destruct (jlookup "access_token" tokenResponse) as [| | |s| |] eqn:Htok;
      cbn; try discriminate.
    intros [= <-]. exists resp, tokenResponse. repeat split; assumption.
  - intros (resp & tokenResponse & Hdo & Hst & Hdec & Htok).
    exact (FetchAccessToken_token _ _ _ _ _ _ Hdo Hst Hdec Htok).
Qed.

(** X16: What [main] does follows the token: an error ends the process before
    any turn of the loop, a panic crashes it, and with a token the loop
    runs on a new [StatsManager], returns from every turn and performs no
    fetch, whatever the clock and the listing endpoint do. *)
Theorem main_outcomes
  (Sscanf_d : string -> option Z) (ParseInt : string -> Z)
  (client0 : Client) (world : list (Time * Client)) :
  match FetchAccessToken client0 "ey9AWAIGj6rn18bQIecGRw"
                         "HcUzeI3XIHCYGeDjx3DIE_mwX9doGA" with
  | TokenReturn _ (Some err) =>
      main Sscanf_d ParseInt client0 world = Fatal err
  | TokenPanic msg =>
      main Sscanf_d ParseInt client0 world = Crashed msg
  | TokenReturn token None =>
      exists evs,
        main Sscanf_d ParseInt client0 world =
          Running (Ok evs NewStatsManager) /\
        fetches evs = O
  end.
Proof.
  unfold main.
  destruct (FetchAccessToken client0 _ _) as [token [err|]|msg];
    try reflexivity.
  destruct (main_loop_starved Sscanf_d ParseInt token world NewStatsManager)
    as (evs & Hrun & Hnone); [cbn; lia|].
  exists evs. rewrite Hrun. split; [reflexivity | exact Hnone].
Qed.

(** ** The loop of [main] on any state *)

Lemma fetches_app (xs ys : list Event) :
  fetches (xs ++ ys)%list = (fetches xs + fetches ys)%nat.
Proof.
  induction xs as [|ev rest IH]; [reflexivity|].
  destruct ev; cbn; rewrite IH; reflexivity.
Qed.

Lemma fetches_idle_turn (sm : StatsManager) (now : Time) :
  fetches (idle_turn sm now) = O.
Proof. unfold idle_turn. destruct (float64_positive _); reflexivity. Qed.

(** X17: With no request left, the loop goes through its turns without a fetch
    and without a change of state, whatever the network would answer. Each
    turn is the pause, after a sleep for the reset when the countdown
    [time.Until(resetTime).Seconds()] is above 0; that sleep lasts
    [time.Duration(countdown) * time.Second], the countdown cut to whole
    seconds, so it is a sleep of 0 when the reset is less than a second
    ahead. No turn brings the remaining requests back. *)
Theorem main_loop_idle_trace
  (Sscanf_d : string -> option Z) (ParseInt : string -> Z)
  (token : string) (world : list (Time * Client)) (sm : StatsManager) :
  remainingRequests sm <= 0 ->
  main_loop Sscanf_d ParseInt token world sm =
    Ok (concat (map (fun w => idle_turn sm (fst w)) world)) sm /\
  fetches (concat (map (fun w => idle_turn sm (fst w)) world)) = O.
Proof.
  intros Hrem. split.
  - induction world as [|[now client] rest IH]; [reflexivity|].
    cbn [main_loop map concat fst]. unfold bind at 1.
    unfold loop_iteration, bind at 1, get, idle_turn at 1.
    destruct (Z.gtb_spec (remainingRequests sm) 0) as [|_]; [lia|].
    destruct (float64_positive (Seconds (Until (resetTime sm) now)));
      unfold ret at 1; unfold bind; rewrite IH; reflexivity.
  - induction world as [|[now client] rest IH]; [reflexivity|].
    cbn [map concat fst]. rewrite fetches_app, fetches_idle_turn, IH.
    reflexivity.
Qed.

(** Three turns after the server said [0] remaining and a reset at second
    100 of the clock: a sleep of 60 seconds at second 40, a sleep of 0 half
    a second before the reset, none after it, and no fetch. *)
Lemma main_loop_idle_trace_witness :
  main_loop scan_decimal parse_decimal "token"
            [(40 * Second, always sample_response_bare);
             (99 * Second + 500000000, always sample_response_bare);
             (200 * Second, always sample_response_bare)]
            (mkSM false (mkStats ∅ zeroPost) 0 (100 * Second)) =
    Ok [EvResetWait (60 * Second); EvPause limitInterval;
        EvResetWait 0; EvPause limitInterval;
        EvPause limitInterval]
       (mkSM false (mkStats ∅ zeroPost) 0 (100 * Second)) /\
  fetches [EvResetWait (60 * Second); EvPause limitInterval;
           EvResetWait 0; EvPause limitInterval;
           EvPause limitInterval] = O.
Proof.
  refine (main_loop_idle_trace scan_decimal parse_decimal "token"
            [(40 * Second, always sample_response_bare);
             (99 * Second + 500000000, always sample_response_bare);
             (200 * Second, always sample_response_bare)]
            (mkSM false (mkStats ∅ zeroPost) 0 (100 * Second)) _).
  vm_compute. discriminate.
Defined.

(** The cut to whole seconds is taken on the [float64]: a countdown just
    below a whole second can reach it by rounding. *)
Example whole_seconds_examples :
  whole_seconds (Seconds 1) = 0 /\
  whole_seconds (Seconds (100 * Second + 999999999)) = 100 * Second /\
  whole_seconds (Seconds (16777216 * Second + 999999999)) = 16777217 * Second.
Proof. repeat split; vm_compute; reflexivity. Qed.

(** X18: With a request left, a turn whose answer carries
    [X-RateLimit-Remaining] and a well-formed listing is the last one: the
    fetch hangs on the mutex, so the loop never reaches its pause nor any
    later turn, and the posts are not recorded. *)
Theorem main_loop_hangs_on_first_listing
  (Sscanf_d : string -> option Z) (ParseInt : string -> Z)
  (token : string) (now : Time) (client : Client)
  (rest : list (Time * Client)) (resp : Response)
  (result : list (string * JValue)) (posts : list RedditPost)
  (sm : StatsManager) :
  0 < remainingRequests sm ->
  mu sm = false ->
  client (listing_request "golang" token) = DoResponse resp ->
  StatusCode resp <> 429 ->
  Header_Get (Header resp) "X-RateLimit-Remaining" <> "" ->
  Decode_map (Body resp) = inr result ->
  walk_listing result = inr posts ->
  exists sm',
    main_loop Sscanf_d ParseInt token ((now, client) :: rest) sm = Deadlock sm' /\
    mu sm' = true /\ stats sm' = stats sm.
Proof.
  intros Hrem Hmu Hdo Hst Hhdr Hdec Hwalk.
  pose proof (after_headers_stats Sscanf_d ParseInt resp sm) as Hstats.
  pose proof (after_headers_mu Sscanf_d ParseInt resp sm Hmu) as Hheld.
  destruct (String.eqb_spec (Header_Get (Header resp) "X-RateLimit-Remaining") "")
    as [Hempty|_]; [contradiction|].
  cbn in Hheld.
  exists (after_headers Sscanf_d ParseInt resp sm).
  split; [|split; [exact Hheld | exact Hstats]].
  cbn [main_loop]. unfold bind at 1. unfold loop_iteration, bind at 1, get.
  destruct (Z.gtb_spec (remainingRequests sm) 0) as [_|]; [|lia].
  unfold bind at 1.
  rewrite (FetchRedditData_past_headers _ _ _ _ _ _ _ Hdo Hst Hmu), Hdec.
  unfold bind, lift. rewrite Hwalk.
  rewrite (UpdateStats_held _ _ Hheld). reflexivity.
Qed.

Lemma main_loop_hangs_on_first_listing_witness :
  exists sm',
    main_loop scan_decimal parse_decimal "token"
              [(0, always sample_response); (5 * Second, always sample_response)]
              (mkSM false (mkStats ∅ zeroPost) 1 0) = Deadlock sm' /\
    mu sm' = true /\ stats sm' = mkStats ∅ zeroPost.
Proof.
  refine (main_loop_hangs_on_first_listing scan_decimal parse_decimal "token"
            0 (always sample_response) [(5 * Second, always sample_response)]
            sample_response
            [("kind", JString "Listing");
             ("data", JObject [("children", JArray [sample_child])])]
            [mkPost "hello" "alice" 42]
            (mkSM false (mkStats ∅ zeroPost) 1 0) _ _ _ _ _ _ _);
    try reflexivity; vm_compute; discriminate.
Defined.

(** ** Reset times *)

(** The countdown from one Unix second to another is their difference in
    nanoseconds, for seconds of our era that are within the reach of a
    [Duration] of each other. *)
Lemma Until_Unix (r n : Z) :
  0 <= r <= 2 ^ 62 ->
  0 <= n <= 2 ^ 62 ->
  - 9223372036 <= r - n <= 9223372036 ->
  Until (Unix r) (Unix n) = (r - n) * Second.
Proof.
  intros Hr Hn Hd. unfold Until, Sub, Unix.
  rewrite !wrap_int_small
    by (unfold int_min, int_max, unixToInternal; lia).
  unfold minDuration, maxDuration, int_min, int_max, unixToInternal, Second.
  lia.
Qed.

(** X19: With no request left and a reset time set from the epoch second [r],
    a turn of the loop at the epoch second [n] before [r] waits [r - n]
    seconds for the reset, then pauses, and changes nothing: the remaining
    requests are still none after the wait. *)
Theorem loop_iteration_waits_until_reset
  (Sscanf_d : string -> option Z) (ParseInt : string -> Z)
  (token : string) (client : Client) (r n : Z) (sm : StatsManager) :
  remainingRequests sm <= 0 ->
  resetTime sm = Unix r ->
  0 <= n ->
  n < r ->
  r <= 2 ^ 62 ->
  r - n <= 9223372036 ->
  loop_iteration Sscanf_d ParseInt token (Unix n) client sm =
    Ok [EvResetWait ((r - n) * Second); EvPause limitInterval] sm.
Proof.
  intros Hrem Hreset Hn Hlt Hr Hd. unfold loop_iteration, bind, get.
  destruct (Z.gtb_spec (remainingRequests sm) 0) as [|_]; [lia|].
  rewrite Hreset, Until_Unix by lia.
  destruct (Seconds_whole (r - n)) as [Hpos Hwhole]; [lia|].
  rewrite Hpos, Hwhole. reflexivity.
Qed.

Lemma loop_iteration_waits_until_reset_witness :
  loop_iteration scan_decimal parse_decimal "token" (Unix 1700000000)
                 (always sample_response_bare)
                 (mkSM false (mkStats ∅ zeroPost) 0 (Unix 1700000060)) =
    Ok [EvResetWait (60 * Second); EvPause limitInterval]
       (mkSM false (mkStats ∅ zeroPost) 0 (Unix 1700000060)).
Proof.
  refine (loop_iteration_waits_until_reset scan_decimal parse_decimal "token"
            (always sample_response_bare) 1700000060 1700000000
            (mkSM false (mkStats ∅ zeroPost) 0 (Unix 1700000060))
            _ _ _ _ _ _);
    vm_compute; try reflexivity; discriminate.
Defined.

(** ** The printer after a fetch that hangs *)

(** X20: When a fetch hangs on the mutex, the printing loop hangs on it too at
    its next turn: from then on nothing is fetched and nothing printed. *)
Theorem printer_hangs_after_fetch_hangs
  (Sscanf_d : string -> option Z) (ParseInt : string -> Z)
  (client : Client) (subreddit token : string) (resp : Response)
  (result : list (string * JValue)) (posts : list RedditPost)
  (ticks : nat) (sm : StatsManager) :
  client (listing_request subreddit token) = DoResponse resp ->
  StatusCode resp <> 429 ->
  mu sm = false ->
  Header_Get (Header resp) "X-RateLimit-Remaining" <> "" ->
  Decode_map (Body resp) = inr result ->
  walk_listing result = inr posts ->
  exists sm',
    FetchRedditData Sscanf_d ParseInt client subreddit token sm = Deadlock sm' /\
    StartStatsPrinting (S ticks) sm' = Deadlock sm'.
Proof.
  intros Hdo Hst Hmu Hhdr Hdec Hwalk.
  pose proof (after_headers_mu Sscanf_d ParseInt resp sm Hmu) as Hheld.
  destruct (String.eqb_spec (Header_Get (Header resp) "X-RateLimit-Remaining") "")
    as [Hempty|_]; [contradiction|].
  cbn in Hheld.
  exists (after_headers Sscanf_d ParseInt resp sm). split.
  - rewrite (FetchRedditData_past_headers _ _ _ _ _ _ _ Hdo Hst Hmu), Hdec.
    unfold bind, lift. rewrite Hwalk.
    rewrite (UpdateStats_held _ _ Hheld). reflexivity.
  - apply StartStatsPrinting_held. exact Hheld.
Qed.

Lemma printer_hangs_after_fetch_hangs_witness :
  exists sm',
    FetchRedditData scan_decimal parse_decimal (always sample_response)
                    "golang" "token" NewStatsManager = Deadlock sm' /\
    StartStatsPrinting 1 sm' = Deadlock sm'.
Proof.
  refine (printer_hangs_after_fetch_hangs scan_decimal parse_decimal
            (always sample_response) "golang" "token" sample_response
            [("kind", JString "Listing");
             ("data", JObject [("children", JArray [sample_child])])]
            [mkPost "hello" "alice" 42] 0 NewStatsManager _ _ _ _ _ _);
    try reflexivity; vm_compute; discriminate.
Defined.

(** ** The post built from a child of the listing *)

Example float64_7_5_is_7_5 :
  SpecFloat.binary_normalize 53 1024 15 (-1) false = float64_7_5.
Proof. vm_compute. reflexivity. Qed.

Lemma post_of_child_fields
  (item postData : list (string * JValue)) (title author : string)
  (f : SpecFloat.spec_float) :
  jlookup "data" item = JObject postData ->
  jlookup "title" postData = JString title ->
  jlookup "author" postData = JString author ->
  jlookup "score" postData = JNumber f ->
  post_of_child (JObject item) = inr (mkPost title author (float64_to_int f)).
Proof.
  intros Hdata Htitle Hauthor Hscore. unfold post_of_child. cbn [as_map].
  rewrite Hdata. cbn [as_map]. rewrite Htitle, Hauthor, Hscore. reflexivity.
Qed.

(** C7: in a listing whose children all convert, a child whose [data] holds
    a string title, a string author and a number as score gives, at its
    place in the slice that [FetchRedditData] builds, the post with these
    fields and the score converted by [float64_to_int]; on an answer
    without [X-RateLimit-Remaining] that slice is what is folded into the
    statistics. The conversion of 42.0 is 42, and a finite score whose
    truncation fits an [int] is truncated toward zero. *)
Theorem C7_score_truncated_to_int
  (result data : list (string * JValue)) (before after : list JValue)
  (pre post : list RedditPost)
  (item postData : list (string * JValue)) (title author : string)
  (f : SpecFloat.spec_float) :
  jlookup "data" result = JObject data ->
  jlookup "children" data = JArray (before ++ JObject item :: after)%list ->
  Forall2 (fun child p => post_of_child child = inr p) before pre ->
  Forall2 (fun child p => post_of_child child = inr p) after post ->
  jlookup "data" item = JObject postData ->
  jlookup "title" postData = JString title ->
  jlookup "author" postData = JString author ->
  jlookup "score" postData = JNumber f ->
  walk_listing result =
    inr (pre ++ mkPost title author (float64_to_int f) :: post)%list /\
  (forall (Sscanf_d : string -> option Z) (ParseInt : string -> Z)
          (client : Client) (subreddit token : string) (resp : Response)
          (sm : StatsManager),
     client (listing_request subreddit token) = DoResponse resp ->
     StatusCode resp <> 429 ->
     mu sm = false ->
     Header_Get (Header resp) "X-RateLimit-Remaining" = "" ->
     Decode_map (Body resp) = inr result ->
     exists sm',
       FetchRedditData Sscanf_d ParseInt client subreddit token sm = Ok tt sm' /\
       stats sm' =
         fold_left update_post
                   (pre ++ mkPost title author (float64_to_int f) :: post)%list
                   (stats sm)) /\
  float64_to_int float64_42 = 42 /\
  forall s m e,
    int_min <= truncate_toward_zero s m e <= int_max ->
    float64_to_int (SpecFloat.S754_finite s m e) = truncate_toward_zero s m e.
Proof.
  intros Hdata Hchildren Hbefore Hafter Hitem Htitle Hauthor Hscore.
  assert (Hwalk : walk_listing result =
                  inr (pre ++ mkPost title author (float64_to_int f) :: post)%list).
  { unfold walk_listing. rewrite Hdata. cbn [as_map]. rewrite Hchildren.
    cbn [as_slice]. apply collect_posts_spec.
    exists (pre ++ mkPost title author (float64_to_int f) :: post)%list.
    split; [reflexivity|].
    apply Forall2_app; [exact Hbefore|].
    constructor; [|exact Hafter].
    exact (post_of_child_fields _ _ _ _ _ Hitem Htitle Hauthor Hscore). }
  split; [exact Hwalk|]. split; [|split].
  - intros Sscanf_d ParseInt client subreddit token resp sm
           Hdo Hst Hmu Hhdr Hdec.
    destruct (FetchRedditData_records_posts Sscanf_d ParseInt client subreddit
                token resp result _ sm Hdo Hst Hmu Hhdr Hdec Hwalk)
      as (sm' & Hrun & Hstats & _).
    exists sm'. split; assumption.
  - reflexivity.
  - apply float64_to_int_finite.
Qed.

(** A listing of two children: a post of bob with score 7.5, then a post
    of alice with score 42.0. *)
Lemma C7_score_truncated_to_int_witness :
  walk_listing two_children_result =
    inr [mkPost "first" "bob" 7; mkPost "hello" "alice" 42] /\
  (forall (Sscanf_d : string -> option Z) (ParseInt : string -> Z)
          (client : Client) (subreddit token : string) (resp : Response)
          (sm : StatsManager),
     client (listing_request subreddit token) = DoResponse resp ->
     StatusCode resp <> 429 ->
     mu sm = false ->
     Header_Get (Header resp) "X-RateLimit-Remaining" = "" ->
     Decode_map (Body resp) = inr two_children_result ->
     exists sm',
       FetchRedditData Sscanf_d ParseInt client subreddit token sm = Ok tt sm' /\
       stats sm' =
         fold_left update_post
                   [mkPost "first" "bob" 7; mkPost "hello" "alice" 42]
                   (stats sm)) /\
  float64_to_int float64_42 = 42 /\
  forall s m e,
    int_min <= truncate_toward_zero s m e <= int_max ->
    float64_to_int (SpecFloat.S754_finite s m e) = truncate_toward_zero s m e.
Proof.
  refine (C7_score_truncated_to_int
            two_children_result
            [("children", JArray [other_child; sample_child])]
            [other_child] [] [mkPost "first" "bob" 7] []
            [("kind", JString "t3");
             ("data", JObject [("title", JString "hello");
                               ("author", JString "alice");
                               ("score", JNumber float64_42)])]
            [("title", JString "hello"); ("author", JString "alice");
             ("score", JNumber float64_42)]
            "hello" "alice" float64_42 _ _ _ _ _ _ _ _);
    try reflexivity.
  - constructor; [reflexivity | constructor].
  - constructor.
Defined.
